(** * TrexPay PIX relay: gateway client, webhook verifier, status mapper,
      transaction store and the status / webhook route handlers.

    Shallow embedding of [src/lib/trexpay.ts] and of the route handlers of
    [src/app/api/pix/status/route.ts] (status query, charge creation and
    webhook receiver).

    Conventions of the embedding
    - a JavaScript string is a [string]: the sequence of the bytes of its
      UTF-8 encoding, so [Buffer.from(s)] is the list of its characters;
    - [undefined] / [null] for an optional field is [None];
    - the module-level [Map] is a [gmap string Transaction] threaded through
      the operations; every record is created by [saveTransaction] as a fresh
      object, so no two keys share a record;
    - the platform functions the code calls but does not define
      ([JSON.parse], [JSON.stringify], HMAC-SHA256, [Date] parsing and
      printing) are the fields of the class [Runtime];
    - [console.log] output is not modelled. *)

From Stdlib Require Import ZArith QArith Ascii String List Bool Lia.
From stdpp Require Import base option gmap strings list fin_maps.

Open Scope string_scope.

(** ** JavaScript strings *)

Module Js.

(** Truthiness of a string: only the empty string is falsy. *)
Definition truthy (s : string) : bool :=
  match s with
  | EmptyString => false
  | String _ _ => true
  end.

(** Truthiness of a value that may be [undefined] or [null]. *)
Definition truthy_opt (o : option string) : bool :=
  match o with
  | Some s => truthy s
  | None => false
  end.

(** [a || b] where [a] may be [undefined] and [b] is a string. *)
Definition or_str (a : option string) (b : string) : string :=
  match a with
  | Some s => if truthy s then s else b
  | None => b
  end.

(** [a || b] where both may be [undefined]. *)
Definition or_opt (a b : option string) : option string :=
  if truthy_opt a then a else b.

Definition is_upper (c : ascii) : bool :=
  let n := N_of_ascii c in ((65 <=? n) && (n <=? 90))%N.

Definition is_lower (c : ascii) : bool :=
  let n := N_of_ascii c in ((97 <=? n) && (n <=? 122))%N.

Definition lower_char (c : ascii) : ascii :=
  if is_upper c then ascii_of_N (N_of_ascii c + 32) else c.

Definition upper_char (c : ascii) : ascii :=
  if is_lower c then ascii_of_N (N_of_ascii c - 32) else c.

(** [String.prototype.toLowerCase] on the letters A-Z.  Bytes above 127
    (the UTF-8 encoding of the other characters) are left as they are.  The
    only characters outside A-Z whose lower case holds an ASCII letter are
    U+212A (Kelvin sign, to k) and U+0130 (to i followed by a combining dot);
    no word [mapTrexPayStatus] compares with has a k, and the combining dot
    stays in the way, so every comparison comes out as in JavaScript. *)
Fixpoint toLowerCase (s : string) : string :=
  match s with
  | EmptyString => EmptyString
  | String c s' => String (lower_char c) (toLowerCase s')
  end.

Fixpoint toUpperCase (s : string) : string :=
  match s with
  | EmptyString => EmptyString
  | String c s' => String (upper_char c) (toUpperCase s')
  end.

(** [Buffer.from(s)]: the bytes of the string. *)
Definition Buffer_from (s : string) : list ascii := list_ascii_of_string s.

End Js.

(** ** Status mapper ([mapTrexPayStatus]) *)

(** The [switch] over [status.toLowerCase()], its cases in source order. *)
Definition mapTrexPayStatus (status : string) : string :=
  let s := Js.toLowerCase status in
  if String.eqb s "paid" || String.eqb s "approved" || String.eqb s "completed"
  then "paid"
  else if String.eqb s "cancelled" || String.eqb s "canceled" || String.eqb s "refused"
  then "cancelled"
  else if String.eqb s "expired"
  then "expired"
  else "pending".

(** The closed set of canonical statuses. *)
Definition canonical_statuses : list string :=
  ["pending"; "paid"; "cancelled"; "expired"].

Definition terminal_statuses : list string :=
  ["paid"; "cancelled"; "expired"].

(** [casing_of k s]: [s] is the word [k] with each letter in either case.
    It is defined character by character, without [toLowerCase]. *)
Definition char_casing (a b : ascii) : bool :=
  Ascii.eqb b a || (Js.is_lower a && Ascii.eqb b (Js.upper_char a)).

Fixpoint casing_of (k s : string) : bool :=
  match k, s with
  | EmptyString, EmptyString => true
  | String a k', String b s' => char_casing a b && casing_of k' s'
  | _, _ => false
  end.

(** [s] is some casing of one of the words [ks]. *)
Definition casing_of_any (ks : list string) (s : string) : bool :=
  existsb (fun k => casing_of k s) ks.

(** ** JavaScript values (the untyped gateway response) *)

(** A value as [response.json()] yields it, plus [undefined] for the
    properties that are absent.  A number is its mathematical value. *)
#[warnings="-register-all"]
Inductive JsValue : Type :=
| JUndefined
| JNull
| JBool (b : bool)
| JNumber (n : Q)
| JString (s : string)
| JArray (items : list JsValue)
| JObject (props : gmap string JsValue).

Module JsVal.

(** ToBoolean. *)
Definition truthy (v : JsValue) : bool :=
  match v with
  | JUndefined | JNull => false
  | JBool b => b
  | JNumber n => negb (Qnum n =? 0)%Z
  | JString s => Js.truthy s
  | JArray _ | JObject _ => true
  end.

(** [a || b]. *)
Definition or (a b : JsValue) : JsValue := if truthy a then a else b.

(** Reading a property off [undefined] or [null] throws a TypeError. *)
Definition nullish (v : JsValue) : bool :=
  match v with
  | JUndefined | JNull => true
  | _ => false
  end.

(** [v.name] for a value that is not nullish.  None of the names the
    gateway client reads is a property of a string, number, boolean or
    array, nor of [Object.prototype]. *)
Definition prop (v : JsValue) (name : string) : JsValue :=
  match v with
  | JObject props => default JUndefined (props !! name)
  | _ => JUndefined
  end.

(** [String(error)] of the TypeError of reading [name] off [v] (V8). *)
Definition TypeError (v : JsValue) (name : string) : string :=
  "TypeError: Cannot read properties of "
    ++ (match v with JNull => "null" | _ => "undefined" end)
    ++ " (reading '" ++ name ++ "')".

End JsVal.

(** ** Configuration ([process.env]) *)

Record Env := {
  env_TREXPAY_TOKEN : option string;
  env_TREXPAY_SECRET : option string
}.

Definition TREXPAY_API_URL : string :=
  "https://app.trexpay.com.br/api/wallet/deposit/payment".

(** [process.env.TREXPAY_TOKEN || ""] and [process.env.TREXPAY_SECRET || ""]. *)
Definition TREXPAY_TOKEN (e : Env) : string := Js.or_str (env_TREXPAY_TOKEN e) "".
Definition TREXPAY_SECRET (e : Env) : string := Js.or_str (env_TREXPAY_SECRET e) "".

(** ** Gateway client ([createTrexPayPix]) *)

Record TrexPayCreatePixRequest := {
  req_amount : Q;
  req_debtor_name : string;
  req_phone : string;
  req_email : string;
  req_debtor_document_number : string;
  req_postback : string;
  req_utm_source : option string;
  req_utm_campaign : option string;
  req_split_email : option string;
  req_split_percentage : option string
}.

(** The normalized result.  The declared type of the optional fields is
    [string]; at run time they hold whatever the gateway sent. *)
Record TrexPayCreatePixResponse := {
  success : bool;
  qrcode : JsValue;
  qrcode_base64 : JsValue;
  transaction_id : JsValue;
  txid : JsValue;
  expires_at : JsValue;
  error : JsValue
}.

(** The JSON body posted to the gateway. *)
Record GatewayRequestBody := {
  body_token : string;
  body_secret : string;
  body_amount : Q;
  body_debtor_name : string;
  body_phone : string;
  body_email : string;
  body_debtor_document_number : string;
  body_method_pay : string;
  body_postback : string;
  body_utm_source : string;
  body_utm_campaign : string;
  body_split_email : string;
  body_split_percentage : string
}.

(** One outbound [fetch]. *)
Record OutboundCall := {
  call_url : string;
  call_method : string;
  call_body : GatewayRequestBody
}.

(** What [await response.json()] gives: a value, or it throws. *)
Inductive JsonOutcome :=
| JsonThrows (err : string)
| JsonValue (responseData : JsValue).

(** What [await fetch(...)] gives: it throws ([err] is [String(error)]), or
    a response with its status. *)
Inductive FetchOutcome :=
| FetchThrows (err : string)
| FetchResponse (status : Z) (json : JsonOutcome).

(** [response.ok]. *)
Definition response_ok (status : Z) : bool := (200 <=? status)%Z && (status <=? 299)%Z.

Definition failure_result (err : JsValue) : TrexPayCreatePixResponse :=
  {| success := false; qrcode := JUndefined; qrcode_base64 := JUndefined;
     transaction_id := JUndefined; txid := JUndefined; expires_at := JUndefined;
     error := err |}.

(** The [requestBody] literal and the [fetch] call made with it. *)
Definition requestBody_of (e : Env) (request : TrexPayCreatePixRequest)
    : GatewayRequestBody :=
  {| body_token := TREXPAY_TOKEN e;
     body_secret := TREXPAY_SECRET e;
     body_amount := req_amount request;
     body_debtor_name := req_debtor_name request;
     body_phone := req_phone request;
     body_email := req_email request;
     body_debtor_document_number := req_debtor_document_number request;
     body_method_pay := "pix";
     body_postback := req_postback request;
     body_utm_source := Js.or_str (req_utm_source request) "";
     body_utm_campaign := Js.or_str (req_utm_campaign request) "";
     body_split_email := Js.or_str (req_split_email request) "";
     body_split_percentage := Js.or_str (req_split_percentage request) "" |}.

Definition gateway_call (e : Env) (request : TrexPayCreatePixRequest) : OutboundCall :=
  {| call_url := TREXPAY_API_URL; call_method := "POST";
     call_body := requestBody_of e request |}.

(** [createTrexPayPix]: the result and the outbound calls made, in order.
    [fetch] is the gateway as seen from the client. *)
Definition createTrexPayPix (e : Env) (fetch : OutboundCall -> FetchOutcome)
    (request : TrexPayCreatePixRequest) : TrexPayCreatePixResponse * list OutboundCall :=
  if negb (Js.truthy (TREXPAY_TOKEN e)) || negb (Js.truthy (TREXPAY_SECRET e)) then
    (failure_result (JString "Credenciais TrexPay não configuradas"), [])
  else
    let call := gateway_call e request in
    match fetch call with
    | FetchThrows err => (failure_result (JString err), [call])
    | FetchResponse status (JsonThrows err) => (failure_result (JString err), [call])
    | FetchResponse status (JsonValue responseData) =>
        if negb (response_ok status) then
          if JsVal.nullish responseData then
            (failure_result (JString (JsVal.TypeError responseData "message")), [call])
          else
            (failure_result
               (JsVal.or (JsVal.or (JsVal.prop responseData "message")
                                   (JsVal.prop responseData "error"))
                         (JString "Erro ao criar PIX")),
             [call])
        else
          if JsVal.nullish responseData then
            (failure_result (JString (JsVal.TypeError responseData "qrcode")), [call])
          else
            ({| success := true;
                qrcode := JsVal.or (JsVal.or (JsVal.prop responseData "qrcode")
                                             (JsVal.prop responseData "pix_code"))
                                   (JsVal.prop responseData "emv");
                qrcode_base64 := JsVal.or (JsVal.prop responseData "qrcode_base64")
                                          (JsVal.prop responseData "qr_code_base64");
                transaction_id :=
                  JsVal.or (JsVal.or (JsVal.prop responseData "transaction_id")
                                     (JsVal.prop responseData "id"))
                           (JsVal.prop responseData "idTransaction");
                txid := JsVal.or (JsVal.prop responseData "txid")
                                 (JsVal.prop responseData "tx_id");
                expires_at := JsVal.or (JsVal.prop responseData "expires_at")
                                       (JsVal.prop responseData "expiration");
                error := JUndefined |},
             [call])
    end.

(** The JSON body is an object with a property called [name], whatever
    its value. *)
Definition has_field (body : JsValue) (name : string) : Prop :=
  match body with
  | JObject props => is_Some (props !! name)
  | _ => False
  end.

(** The names under which the gateway may send the transaction identifier. *)
Definition transaction_id_fields : list string :=
  ["transaction_id"; "id"; "idTransaction"].

(** The credentials are configured: both variables set and not empty. *)
Definition credentials_configured (e : Env) : Prop :=
  Js.truthy (TREXPAY_TOKEN e) = true ∧ Js.truthy (TREXPAY_SECRET e) = true.

(** A credential is unset (or set to the empty string, which the code does
    not tell apart). *)
Definition credentials_unset (e : Env) : Prop :=
  Js.truthy_opt (env_TREXPAY_TOKEN e) = false
  ∨ Js.truthy_opt (env_TREXPAY_SECRET e) = false.

(** ** Webhook payload ([TrexPayWebhookPayload]) *)

Record Payer := {
  payer_name : string;
  payer_document : string
}.

Record Metadata := {
  meta_txid : string
}.

(** [data.metadata?.txid] is read with optional chaining and [paid_at] is
    declared optional: both may be absent. *)
Record WebhookData := {
  data_idTransaction : string;
  data_status : string;
  data_amount : Q;
  data_paid_at : option string;
  data_typeTransaction : string;
  data_payer : Payer;
  data_metadata : option Metadata
}.

Record TrexPayWebhookPayload := {
  payload_event : string;
  payload_data : WebhookData;
  payload_signature : option string
}.

(** ** Dates *)

(** A [Date] object is its time value in milliseconds; [InvalidDate] is the
    [Date] whose time value is NaN. *)
Inductive Date :=
| ValidDate (ms : Z)
| InvalidDate.

(** ** Platform functions *)

Class Runtime := {
  (** [JSON.parse] of a webhook body; [None] when it throws.  A body that
      parses is taken to have the declared type [TrexPayWebhookPayload]. *)
  JSON_parse : string -> option TrexPayWebhookPayload;
  (** [JSON.stringify] of a parsed payload. *)
  JSON_stringify : TrexPayWebhookPayload -> string;
  (** [crypto.createHmac("sha256", key).update(message).digest("hex")]. *)
  HMAC_SHA256_hex : string -> string -> string;
  (** The time value [new Date(s)] parses out of a string; [None] is NaN. *)
  Date_parse : string -> option Z;
  (** [toISOString] of a valid time value. *)
  Date_toISOString : Z -> string
}.

(** [new Date(s)] for a string. *)
Definition Date_of_string `{Runtime} (s : string) : Date :=
  match Date_parse s with
  | Some ms => ValidDate ms
  | None => InvalidDate
  end.

(** [d.toISOString()]: throws a RangeError ([None]) on an invalid date. *)
Definition toISOString `{Runtime} (d : Date) : option string :=
  match d with
  | ValidDate ms => Some (Date_toISOString ms)
  | InvalidDate => None
  end.

(** ** Webhook verifier ([verifyTrexPaySignature]) *)

(** [crypto.timingSafeEqual]: throws a RangeError ([None]) when the two
    buffers differ in length, otherwise tells whether they are equal. *)
Definition timingSafeEqual (a b : list ascii) : option bool :=
  if (length a =? length b)%nat then Some (bool_decide (a = b)) else None.

Definition verifyTrexPaySignature `{Runtime}
    (payload : TrexPayWebhookPayload) (signature secret : string) : bool :=
  if negb (Js.truthy signature) || negb (Js.truthy secret) then false
  else
    let expectedSignature :=
      "sha256=" ++ HMAC_SHA256_hex secret (JSON_stringify payload) in
    match timingSafeEqual (Js.Buffer_from signature) (Js.Buffer_from expectedSignature) with
    | Some b => b
    | None => false
    end.

(** ** Transaction store *)

Record Customer := {
  cust_name : string;
  cust_email : string;
  cust_phone : string;
  cust_document : string
}.

Record TrackingParams := {
  tp_utm_source : option string;
  tp_utm_campaign : option string;
  tp_utm_medium : option string;
  tp_utm_content : option string;
  tp_utm_term : option string;
  tp_src : option string;
  tp_sck : option string
}.

Record Product := {
  prod_id : string;
  prod_name : string;
  prod_price : Q;
  prod_quantity : Q
}.

(** The argument of [saveTransaction]. *)
Record TransactionData := {
  data_orderId : string;
  data_tx_status : string;
  data_tx_amount : Q;
  data_customer : Customer;
  data_trackingParams : TrackingParams;
  data_products : list Product
}.

(** A stored record. *)
Record Transaction := {
  orderId : string;
  status : string;
  amount : Q;
  customer : Customer;
  trackingParams : TrackingParams;
  products : list Product;
  createdAt : Date;
  paidAt : option Date
}.

(** [transaction.status = s]. *)
Definition set_status (s : string) (t : Transaction) : Transaction :=
  {| orderId := orderId t; status := s; amount := amount t;
     customer := customer t; trackingParams := trackingParams t;
     products := products t; createdAt := createdAt t; paidAt := paidAt t |}.

(** [transaction.paidAt = d]. *)
Definition set_paidAt (d : Date) (t : Transaction) : Transaction :=
  {| orderId := orderId t; status := status t; amount := amount t;
     customer := customer t; trackingParams := trackingParams t;
     products := products t; createdAt := createdAt t; paidAt := Some d |}.

(** [saveTransaction]: [now] is the time of [new Date()]. *)
Definition saveTransaction (now : Z) (transactionId : string) (data : TransactionData)
    (transactionStore : gmap string Transaction) : gmap string Transaction :=
  <[transactionId :=
      {| orderId := data_orderId data; status := data_tx_status data;
         amount := data_tx_amount data; customer := data_customer data;
         trackingParams := data_trackingParams data; products := data_products data;
         createdAt := ValidDate now; paidAt := None |}]> transactionStore.

Definition getTransaction (transactionId : string)
    (transactionStore : gmap string Transaction) : option Transaction :=
  transactionStore !! transactionId.

(** [updateTransactionStatus]: a [Date] argument is an object, so
    [if (paidAt)] holds exactly when the argument is supplied. *)
Definition updateTransactionStatus (transactionId : string) (new_status : string)
    (paidAt_arg : option Date)
    (transactionStore : gmap string Transaction) : gmap string Transaction :=
  match transactionStore !! transactionId with
  | Some transaction =>
      let transaction1 := set_status new_status transaction in
      let transaction2 :=
        match paidAt_arg with
        | Some d => set_paidAt d transaction1
        | None => transaction1
        end in
      <[transactionId := transaction2]> transactionStore
  | None => transactionStore
  end.

(** ** HTTP responses of the route handlers *)

(** The JSON bodies the handlers build. *)
Inductive ResponseBody :=
| ErrorBody (error : string)
| FoundBody (success : bool) (transactionId orderId status : string) (paidAt : option string)
| NotFoundBody (success : bool) (transactionId status : string)
| AckBody (success : bool) (message : string)
| ProcessedBody (success : bool) (status : string).

(** [NextResponse.json(body, { status })]; the status defaults to 200. *)
Record HttpResponse := {
  http_status : Z;
  http_body : ResponseBody
}.

Definition json_response (body : ResponseBody) : HttpResponse :=
  {| http_status := 200; http_body := body |}.

(** ** Status query route *)

Module StatusRoute.

(** [GET]: [query] is [searchParams.get("transactionId")].  The handler
    only reads the store. *)
Definition GET `{Runtime} (transactionStore : gmap string Transaction)
    (query : option string) : HttpResponse :=
  match query with
  | None =>
      {| http_status := 400; http_body := ErrorBody "transactionId é obrigatório" |}
  | Some transactionId =>
      if negb (Js.truthy transactionId) then
        {| http_status := 400; http_body := ErrorBody "transactionId é obrigatório" |}
      else
        match getTransaction transactionId transactionStore with
        | Some transaction =>
            match paidAt transaction with
            | None =>
                json_response
                  (FoundBody true transactionId (orderId transaction)
                     (status transaction) None)
            | Some d =>
                match toISOString d with
                | Some iso =>
                    json_response
                      (FoundBody true transactionId (orderId transaction)
                         (status transaction)
                         (if Js.truthy iso then Some iso else None))
                | None =>
                    (* the RangeError lands in the handler's catch *)
                    {| http_status := 500;
                       http_body := ErrorBody "Erro interno ao consultar status" |}
                end
            end
        | None => json_response (NotFoundBody true transactionId "pending")
        end
  end.

End StatusRoute.

(** ** Webhook route *)

(** The request as the handler reads it: the headers (names in lower case,
    as [Headers.get] looks them up) and the text of the body. *)
Record WebhookRequest := {
  headers : gmap string string;
  rawBody : string
}.

Module WebhookRoute.

(** [request.headers.get("x-signature") || request.headers.get("signature") || ""]. *)
Definition signature_of (request : WebhookRequest) : string :=
  Js.or_str (Js.or_opt (headers request !! "x-signature")
                       (headers request !! "signature")) "".

(** [data.idTransaction || data.metadata?.txid]. *)
Definition transactionId_of (data : WebhookData) : option string :=
  Js.or_opt (Some (data_idTransaction data)) (meta_txid <$> data_metadata data).

(** [status === "paid" ? new Date(data.paid_at || Date.now()) : undefined]. *)
Definition paidAt_of `{Runtime} (now : Z) (mapped : string) (data : WebhookData)
    : option Date :=
  if String.eqb mapped "paid" then
    Some (if Js.truthy_opt (data_paid_at data)
          then Date_of_string (Js.or_str (data_paid_at data) "")
          else ValidDate now)
  else None.

(** [POST]: the response and the store after the request.  [now] is
    [Date.now()].  The notification to the attribution service that follows
    the update sits in its own try/catch and touches neither the store nor
    the response; its client is not part of these sources and is left
    out. *)
Definition POST `{Runtime} (e : Env) (now : Z) (request : WebhookRequest)
    (transactionStore : gmap string Transaction)
    : HttpResponse * gmap string Transaction :=
  let signature := signature_of request in
  match JSON_parse (rawBody request) with
  | None =>
      ({| http_status := 400; http_body := ErrorBody "Invalid JSON" |}, transactionStore)
  | Some payload =>
      if Js.truthy signature && Js.truthy_opt (env_TREXPAY_SECRET e)
         && negb (verifyTrexPaySignature payload signature (TREXPAY_SECRET e))
      then
        ({| http_status := 401; http_body := ErrorBody "Invalid signature" |},
         transactionStore)
      else
        let data := payload_data payload in
        let transactionId := transactionId_of data in
        let mapped := mapTrexPayStatus (data_status data) in
        match transactionId with
        | Some tid =>
            match getTransaction tid transactionStore with
            | Some transaction =>
                let paidAt := paidAt_of now mapped data in
                (json_response (ProcessedBody true mapped),
                 updateTransactionStatus tid mapped paidAt transactionStore)
            | None =>
                (json_response (AckBody true "Transaction not found but acknowledged"),
                 transactionStore)
            end
        | None =>
            (json_response (AckBody true "Transaction not found but acknowledged"),
             transactionStore)
        end
  end.

End WebhookRoute.

(** The request gets past the signature check of the webhook handler: no
    signature header, no secret configured, or a signature that verifies. *)
Definition signature_accepted `{Runtime} (e : Env) (payload : TrexPayWebhookPayload)
    (request : WebhookRequest) : Prop :=
  WebhookRoute.signature_of request = ""
  ∨ Js.truthy_opt (env_TREXPAY_SECRET e) = false
  ∨ verifyTrexPaySignature payload (WebhookRoute.signature_of request) (TREXPAY_SECRET e)
    = true.

(** The transaction id of the payload is not a key of the store. *)
Definition unknown_transaction (data : WebhookData) (store : gmap string Transaction)
    : Prop :=
  ∀ tid, WebhookRoute.transactionId_of data = Some tid → store !! tid = None.

(** The acknowledgement of a webhook for an unknown transaction. *)
Definition acknowledged : HttpResponse :=
  json_response (AckBody true "Transaction not found but acknowledged").

(** ** Histories of the store *)

(** The operations that write the store. *)
Inductive Op :=
| OpSave (now : Z) (transactionId : string) (data : TransactionData)
| OpUpdateStatus (transactionId : string) (new_status : string) (paidAt_arg : option Date)
| OpWebhook (now : Z) (request : WebhookRequest).

Definition step `{Runtime} (e : Env) (store : gmap string Transaction) (op : Op)
    : gmap string Transaction :=
  match op with
  | OpSave now tid data => saveTransaction now tid data store
  | OpUpdateStatus tid s d => updateTransactionStatus tid s d store
  | OpWebhook now request => snd (WebhookRoute.POST e now request store)
  end.

Definition run `{Runtime} (e : Env) (ops : list Op) (store : gmap string Transaction)
    : gmap string Transaction :=
  foldl (step e) store ops.

(** The transitions of the status field the state machine allows: from
    [pending] to a terminal status and nothing else. *)
Definition allowed_transition (old new : string) : Prop :=
  old = "pending" ∧ new ∈ terminal_statuses.

(** ** A small runtime and sample data, to run the definitions on examples *)

Module Sample.

Definition quoted (s : string) : string :=
  String "034"%char (s ++ String "034"%char EmptyString).

Definition field (k v : string) : string := quoted k ++ ":" ++ v.

(** Serializes the event and the fields of [data] that the handler reads,
    in their declared order. *)
Definition stringify (p : TrexPayWebhookPayload) : string :=
  let d := payload_data p in
  "{" ++ field "event" (quoted (payload_event p)) ++ ","
      ++ field "data"
           ("{" ++ field "idTransaction" (quoted (data_idTransaction d)) ++ ","
                ++ field "status" (quoted (data_status d)) ++ ","
                ++ field "paid_at"
                     (match data_paid_at d with
                      | Some s => quoted s
                      | None => "null"
                      end)
                ++ "}")
      ++ "}".

Definition payload (tid raw_status : string) (paid_at : option string)
    : TrexPayWebhookPayload :=
  {| payload_event := "payment.updated";
     payload_data :=
       {| data_idTransaction := tid; data_status := raw_status; data_amount := 499 # 10;
          data_paid_at := paid_at; data_typeTransaction := "pix";
          data_payer := {| payer_name := "Ana"; payer_document := "12345678900" |};
          data_metadata := Some {| meta_txid := tid |} |};
     payload_signature := None |}.

Definition paid_at_text : string := "2024-01-15T12:00:00.000Z".
Definition paid_at_ms : Z := 1705320000000.

(** The payloads the sample parser knows. *)
Definition known_payloads : list TrexPayWebhookPayload :=
  [ payload "tx-1" "approved" (Some paid_at_text);
    payload "tx-1" "APPROVED" None;
    payload "tx-1" "waiting_payment" None;
    payload "tx-1" "refused" None;
    payload "tx-1" "paid" (Some "not-a-date");
    payload "tx-404" "approved" None ].

Definition runtime : Runtime := {|
  JSON_parse s := List.find (fun p => String.eqb (stringify p) s) known_payloads;
  JSON_stringify := stringify;
  HMAC_SHA256_hex key message :=
    "5d5c2f6e1b0a4c3d9e8f7a6b5c4d3e2f1a0b9c8d7e6f5a4b3c2d1e0f9a8b7c6d";
  Date_parse s := if String.eqb s paid_at_text then Some paid_at_ms else None;
  Date_toISOString ms := if (ms =? paid_at_ms)%Z then paid_at_text
                         else "2023-11-14T22:13:20.000Z"
|}.

Definition env_unsigned : Env :=
  {| env_TREXPAY_TOKEN := Some "tok_live"; env_TREXPAY_SECRET := None |}.

Definition env_signed : Env :=
  {| env_TREXPAY_TOKEN := Some "tok_live"; env_TREXPAY_SECRET := Some "s3cr3t" |}.

Definition created_ms : Z := 1700000000000.

Definition order : TransactionData :=
  {| data_orderId := "PED-LP2K3X-9F3A";
     data_tx_status := "pending";
     data_tx_amount := 499 # 10;
     data_customer :=
       {| cust_name := "Ana"; cust_email := "a@x.com";
          cust_phone := "11999999999"; cust_document := "12345678900" |};
     data_trackingParams :=
       {| tp_utm_source := Some "ads"; tp_utm_campaign := None; tp_utm_medium := None;
          tp_utm_content := None; tp_utm_term := None; tp_src := None; tp_sck := None |};
     data_products :=
       [ {| prod_id := "caderno"; prod_name := "Caderno"; prod_price := 499 # 10;
            prod_quantity := 1 |} ] |}.

(** One pending record under ["tx-1"]. *)
Definition store_pending : gmap string Transaction :=
  saveTransaction created_ms "tx-1" order ∅.

(** The same record once paid. *)
Definition store_paid : gmap string Transaction :=
  updateTransactionStatus "tx-1" "paid" (Some (ValidDate paid_at_ms)) store_pending.

(** The same record paid with a date that did not parse. *)
Definition store_bad_date : gmap string Transaction :=
  updateTransactionStatus "tx-1" "paid" (Some InvalidDate) store_pending.

Definition request (signature : option string) (p : TrexPayWebhookPayload)
    : WebhookRequest :=
  {| headers := match signature with
                | Some s => {[ "x-signature" := s ]}
                | None => ∅
                end;
     rawBody := stringify p |}.

Definition charge : TrexPayCreatePixRequest :=
  {| req_amount := 499 # 10; req_debtor_name := "Ana"; req_phone := "11999999999";
     req_email := "a@x.com"; req_debtor_document_number := "12345678900";
     req_postback := "https://seusite.com/api/webhook/trexpay";
     req_utm_source := Some "ads"; req_utm_campaign := None;
     req_split_email := None; req_split_percentage := None |}.

(** A gateway that answers every call with [status] and the JSON [body]. *)
Definition gateway (status : Z) (body : JsValue) : OutboundCall -> FetchOutcome :=
  fun _ => FetchResponse status (JsonValue body).

End Sample.


(** ** Charge creation route *)

Module CreateRoute.

(** The JSON body of a charge request as the handler reads it: the fields
    it tests for presence are optional, and a field that is present has its
    declared type. *)
Record CustomerBody := {
  cust_body_name : option string;
  cust_body_email : option string;
  cust_body_cpf : option string;
  cust_body_phone : option string
}.

Record ItemBody := {
  item_id : option string;
  item_name : string;
  item_price : Q;
  item_quantity : Q
}.

Record TrackingBody := {
  tb_src : option string;
  tb_sck : option string;
  tb_utm_source : option string;
  tb_utm_campaign : option string;
  tb_utm_medium : option string;
  tb_utm_content : option string;
  tb_utm_term : option string
}.

Record CreateBody := {
  cb_customer : option CustomerBody;
  cb_items : option (list ItemBody);
  cb_total : option Q;
  cb_trackingParams : option TrackingBody
}.

(** What the handler takes from outside the request: the clock, the two
    base-36 strings [Date.now().toString(36)] and [Math.random().toString(36)],
    whether [saveUtmParams] (in a module that is not part of these sources)
    returns or throws, the gateway, and the two URL variables of the
    environment. *)
Record World := {
  w_now : Z;
  w_timestamp36 : string;
  w_random36 : string;
  w_saveUtmParams_returns : bool;
  w_fetch : OutboundCall -> FetchOutcome;
  w_NEXT_PUBLIC_APP_URL : option string;
  w_VERCEL_URL : option string
}.

(** The JSON bodies the handler answers with. *)
Inductive Response :=
| Failed (http : Z) (error : JsValue)
| Created (orderId : string) (transactionId : JsValue)
          (qrcode qrCodeBase64 expiresAt : JsValue).

Definition is_digit (c : ascii) : bool :=
  let n := N_of_ascii c in ((48 <=? n) && (n <=? 57))%N.

(** [s.replace(/\D/g, "")]. *)
Fixpoint digits_only (s : string) : string :=
  match s with
  | EmptyString => EmptyString
  | String c s' => if is_digit c then String c (digits_only s') else digits_only s'
  end.

(** [generateOrderId], from the two base-36 strings. *)
Definition generateOrderId (timestamp36 random36 : string) : string :=
  "PED-" ++ Js.toUpperCase timestamp36 ++ "-"
         ++ Js.toUpperCase (String.substring 2 4 random36).

(** [getWebhookUrl]. *)
Definition getWebhookUrl (NEXT_PUBLIC_APP_URL VERCEL_URL : option string) : string :=
  let baseUrl := Js.or_opt NEXT_PUBLIC_APP_URL VERCEL_URL in
  if Js.truthy_opt baseUrl then
    let base := Js.or_str baseUrl "" in
    let url := if String.prefix "http" base then base else "https://" ++ base in
    url ++ "/api/webhook/trexpay"
  else "https://seusite.com/api/webhook/trexpay".

(** [trackingParams?.field]. *)
Definition tracking (f : TrackingBody -> option string) (t : option TrackingBody)
    : option string :=
  match t with
  | Some tb => f tb
  | None => None
  end.

(** The [products] of the saved record. *)
Definition product_of (item : ItemBody) : Product :=
  {| prod_id := Js.or_str (item_id item) "product";
     prod_name := item_name item;
     prod_price := item_price item;
     prod_quantity := item_quantity item |}.

(** The argument of [createTrexPayPix]. *)
Definition charge_of (w : World) (name email cpf phone : string) (total : Q)
    (t : option TrackingBody) : TrexPayCreatePixRequest :=
  {| req_amount := total;
     req_debtor_name := name;
     req_phone := digits_only phone;
     req_email := email;
     req_debtor_document_number := digits_only cpf;
     req_postback := getWebhookUrl (w_NEXT_PUBLIC_APP_URL w) (w_VERCEL_URL w);
     req_utm_source :=
       Some (Js.or_str (Js.or_opt (tracking tb_utm_source t) (tracking tb_src t)) "");
     req_utm_campaign :=
       Some (Js.or_str (Js.or_opt (tracking tb_utm_campaign t) (tracking tb_sck t)) "");
     req_split_email := None;
     req_split_percentage := None |}.

(** The argument of [saveTransaction]. *)
Definition record_of (orderId name email cpf phone : string) (total : Q)
    (items : list ItemBody) (t : option TrackingBody) : TransactionData :=
  {| data_orderId := orderId;
     data_tx_status := "pending";
     data_tx_amount := total;
     data_customer :=
       {| cust_name := name; cust_email := email;
          cust_phone := digits_only phone; cust_document := digits_only cpf |};
     data_trackingParams :=
       {| tp_utm_source := Js.or_opt (tracking tb_utm_source t) None;
          tp_utm_campaign := Js.or_opt (tracking tb_utm_campaign t) None;
          tp_utm_medium := Js.or_opt (tracking tb_utm_medium t) None;
          tp_utm_content := Js.or_opt (tracking tb_utm_content t) None;
          tp_utm_term := Js.or_opt (tracking tb_utm_term t) None;
          tp_src := Js.or_opt (tracking tb_src t) None;
          tp_sck := Js.or_opt (tracking tb_sck t) None |};
     data_products := map product_of items |}.

(** [saveTransaction(transactionId, ...)] for the identifier the gateway
    sent.  The store of this development is the part of the [Map] under
    string keys, the only keys the lookups modelled here use: a record put
    under a key that is not a string stays out of their reach. *)
Definition save_under (now : Z) (transactionId : JsValue) (data : TransactionData)
    (transactionStore : gmap string Transaction) : gmap string Transaction :=
  match transactionId with
  | JString k => saveTransaction now k data transactionStore
  | _ => transactionStore
  end.

Definition internal_error : Response :=
  Failed 500 (JString "Erro interno ao processar pagamento").

(** [POST]: the response, the store after the request and the outbound
    calls to the gateway.  [body] is [await request.json()], [None] when it
    throws.  The notification to the attribution service after the save sits
    in its own try/catch and touches neither the store nor the response; its
    client is not part of these sources and is left out. *)
Definition POST (e : Env) (w : World) (body : option CreateBody)
    (transactionStore : gmap string Transaction)
    : Response * gmap string Transaction * list OutboundCall :=
  match body with
  | None => (internal_error, transactionStore, [])
  | Some b =>
      let customer := cb_customer b in
      let field (f : CustomerBody -> option string) : option string :=
        match customer with Some c => f c | None => None end in
      if negb (Js.truthy_opt (field cust_body_name))
         || negb (Js.truthy_opt (field cust_body_email))
         || negb (Js.truthy_opt (field cust_body_cpf))
         || negb (Js.truthy_opt (field cust_body_phone))
      then (Failed 400 (JString "Dados do cliente incompletos"), transactionStore, [])
      else
        match cb_items b with
        | None | Some [] =>
            (Failed 400 (JString "Nenhum item no pedido"), transactionStore, [])
        | Some items =>
            match cb_total b with
            | None => (Failed 400 (JString "Valor total inválido"), transactionStore, [])
            | Some total =>
                if (Qnum total <=? 0)%Z then
                  (Failed 400 (JString "Valor total inválido"), transactionStore, [])
                else
                  let name := Js.or_str (field cust_body_name) "" in
                  let email := Js.or_str (field cust_body_email) "" in
                  let cpf := Js.or_str (field cust_body_cpf) "" in
                  let phone := Js.or_str (field cust_body_phone) "" in
                  let t := cb_trackingParams b in
                  let orderId := generateOrderId (w_timestamp36 w) (w_random36 w) in
                  if (match t with Some _ => true | None => false end)
                     && negb (w_saveUtmParams_returns w)
                  then (internal_error, transactionStore, [])
                  else
                    let '(trexPayResponse, calls) :=
                      createTrexPayPix e (w_fetch w)
                        (charge_of w name email cpf phone total t) in
                    if negb (success trexPayResponse) then
                      (Failed 500 (JsVal.or (error trexPayResponse)
                                            (JString "Erro ao gerar PIX")),
                       transactionStore, calls)
                    else
                      let transactionId :=
                        JsVal.or (JsVal.or (transaction_id trexPayResponse)
                                           (txid trexPayResponse))
                                 (JString orderId) in
                      (Created orderId transactionId (qrcode trexPayResponse)
                         (qrcode_base64 trexPayResponse) (expires_at trexPayResponse),
                       save_under (w_now w) transactionId
                         (record_of orderId name email cpf phone total items t)
                         transactionStore,
                       calls)
            end
        end
  end.

End CreateRoute.

(** Sample data for the charge creation route. *)
Module SampleCheckout.

Definition body : CreateRoute.CreateBody :=
  {| CreateRoute.cb_customer :=
       Some {| CreateRoute.cust_body_name := Some "Ana";
               CreateRoute.cust_body_email := Some "a@x.com";
               CreateRoute.cust_body_cpf := Some "123.456.789-00";
               CreateRoute.cust_body_phone := Some "(11) 99999-9999" |};
     CreateRoute.cb_items :=
       Some [ {| CreateRoute.item_id := Some "caderno";
                 CreateRoute.item_name := "Caderno";
                 CreateRoute.item_price := 499 # 10;
                 CreateRoute.item_quantity := 1 |} ];
     CreateRoute.cb_total := Some (499 # 10);
     CreateRoute.cb_trackingParams := None |}.

Definition world (fetch : OutboundCall -> FetchOutcome) : CreateRoute.World :=
  {| CreateRoute.w_now := Sample.created_ms;
     CreateRoute.w_timestamp36 := "lp2k3x";
     CreateRoute.w_random36 := "0.9f3a7c";
     CreateRoute.w_saveUtmParams_returns := true;
     CreateRoute.w_fetch := fetch;
     CreateRoute.w_NEXT_PUBLIC_APP_URL := None;
     CreateRoute.w_VERCEL_URL := Some "loja.vercel.app" |}.

End SampleCheckout.

(** ** Histories without [saveTransaction] *)

(** The operation updates records and does not create or replace them. *)
Definition keeps_records (op : Op) : bool :=
  match op with
  | OpSave _ _ _ => false
  | OpUpdateStatus _ _ _ | OpWebhook _ _ => true
  end.

(** [t'] is [t] up to its status and paid date, and has a paid date if [t]
    has one. *)
Definition same_order (t t' : Transaction) : Prop :=
  orderId t' = orderId t
  ∧ amount t' = amount t
  ∧ customer t' = customer t
  ∧ trackingParams t' = trackingParams t
  ∧ products t' = products t
  ∧ createdAt t' = createdAt t
  ∧ (is_Some (paidAt t) → is_Some (paidAt t')).

(** ** Charge requests *)

(** The body passes the handler's validation: the four customer fields are
    there and not empty, there is at least one item, and the total is
    positive. *)
Definition well_formed_charge (b : CreateRoute.CreateBody)
    (name email cpf phone : string) (items : list CreateRoute.ItemBody) (total : Q)
    : Prop :=
  (∃ c, CreateRoute.cb_customer b = Some c
        ∧ CreateRoute.cust_body_name c = Some name ∧ name ≠ ""
        ∧ CreateRoute.cust_body_email c = Some email ∧ email ≠ ""
        ∧ CreateRoute.cust_body_cpf c = Some cpf ∧ cpf ≠ ""
        ∧ CreateRoute.cust_body_phone c = Some phone ∧ phone ≠ "")
  ∧ CreateRoute.cb_items b = Some items ∧ items ≠ []
  ∧ CreateRoute.cb_total b = Some total ∧ (0 < total)%Q.

(** [saveUtmParams] is not called, or returns. *)
Definition utm_saved (w : CreateRoute.World) (b : CreateRoute.CreateBody) : Prop :=
  CreateRoute.cb_trackingParams b = None ∨ CreateRoute.w_saveUtmParams_returns w = true.

(** * Properties *)

(** ** Characters and casing *)

Lemma lower_upper_char (a : ascii) :
  Js.is_lower a = true → Js.lower_char (Js.upper_char a) = a.
Proof.
  destruct a as [[] [] [] [] [] [] [] []]; vm_compute; congruence.
Qed.

Lemma char_casing_lower (b : ascii) : char_casing (Js.lower_char b) b = true.
Proof.
  destruct b as [[] [] [] [] [] [] [] []]; vm_compute; reflexivity.
Qed.

Lemma lower_char_of_upper (c : ascii) :
  Js.lower_char (Js.upper_char c) = Js.lower_char c.
Proof.
  destruct c as [[] [] [] [] [] [] [] []]; vm_compute; reflexivity.
Qed.

Lemma lower_char_idem (c : ascii) : Js.lower_char (Js.lower_char c) = Js.lower_char c.
Proof.
  destruct c as [[] [] [] [] [] [] [] []]; vm_compute; reflexivity.
Qed.

Lemma char_casing_spec (a b : ascii) :
  Js.lower_char a = a → (char_casing a b = true ↔ Js.lower_char b = a).
Proof.
  intros Ha. split.
  - unfold char_casing. intros Hc.
    apply orb_true_iff in Hc as [Hc | Hc].
    + apply Ascii.eqb_eq in Hc. congruence.
    + apply andb_true_iff in Hc as [Hl Hc].
      apply Ascii.eqb_eq in Hc. subst b. by apply lower_upper_char.
  - intros <-. apply char_casing_lower.
Qed.

(** A word without capitals is matched by exactly the strings that
    lower-case to it. *)
Lemma casing_of_spec (k : string) :
  Js.toLowerCase k = k → ∀ s, casing_of k s = true ↔ Js.toLowerCase s = k.
Proof.
  induction k as [| a k IH]; intros Hk s.
  - destruct s; simpl; split; try done.
  - simpl in Hk. injection Hk as Ha Hk'.
    destruct s as [| b s]; simpl; [split; done |].
    rewrite andb_true_iff, (char_casing_spec a b Ha), (IH Hk' s).
    split.
    + intros [-> ->]. done.
    + intros [= -> ->]. done.
Qed.

Lemma toLowerCase_toUpperCase (s : string) :
  Js.toLowerCase (Js.toUpperCase s) = Js.toLowerCase s.
Proof.
  induction s as [| c s IH]; simpl; [done |].
  by rewrite lower_char_of_upper, IH.
Qed.

Lemma toLowerCase_idem (s : string) :
  Js.toLowerCase (Js.toLowerCase s) = Js.toLowerCase s.
Proof.
  induction s as [| c s IH]; simpl; [done |].
  by rewrite lower_char_idem, IH.
Qed.

(** [mapTrexPayStatus] only looks at the lower-cased input. *)
Lemma mapTrexPayStatus_lower (s t : string) :
  Js.toLowerCase s = Js.toLowerCase t → mapTrexPayStatus s = mapTrexPayStatus t.
Proof. unfold mapTrexPayStatus. by intros ->. Qed.

Lemma mapTrexPayStatus_canonical (s : string) :
  mapTrexPayStatus s ∈ canonical_statuses.
Proof.
  unfold mapTrexPayStatus, canonical_statuses.
  repeat case_match; set_solver.
Qed.

Lemma casing_of_eqb (k s : string) :
  Js.toLowerCase k = k → casing_of k s = String.eqb (Js.toLowerCase s) k.
Proof.
  intros Hk. apply eq_true_iff_eq.
  rewrite (casing_of_spec k Hk s). symmetry. apply String.eqb_eq.
Qed.

Ltac casing_to_eqb :=
  unfold casing_of_any, existsb;
  repeat (rewrite casing_of_eqb by reflexivity).

Ltac split_on_word l w :=
  destruct (String.eqb_spec l w) as [-> |]; [vm_compute; intuition congruence |].

(** C5. [mapTrexPayStatus] is total and case-insensitive, with values in the
    closed set of four statuses: it gives [paid] on exactly the casings of
    paid, approved and completed, [cancelled] on exactly the casings of
    cancelled, canceled and refused, [expired] on exactly the casings of
    expired, and [pending] on every other string, the casings of pending and
    waiting_payment among them. *)
Theorem mapTrexPayStatus_spec (s : string) :
  mapTrexPayStatus s ∈ canonical_statuses
  ∧ mapTrexPayStatus (Js.toUpperCase s) = mapTrexPayStatus s
  ∧ mapTrexPayStatus (Js.toLowerCase s) = mapTrexPayStatus s
  ∧ (mapTrexPayStatus s = "paid"
     ↔ casing_of_any ["paid"; "approved"; "completed"] s = true)
  ∧ (mapTrexPayStatus s = "cancelled"
     ↔ casing_of_any ["cancelled"; "canceled"; "refused"] s = true)
  ∧ (mapTrexPayStatus s = "expired" ↔ casing_of "expired" s = true)
  ∧ (mapTrexPayStatus s = "pending"
     ↔ casing_of_any ["paid"; "approved"; "completed"; "cancelled"; "canceled";
                      "refused"; "expired"] s = false)
  ∧ (casing_of_any ["pending"; "waiting_payment"] s = true
     → mapTrexPayStatus s = "pending").
Proof.
  split; [apply mapTrexPayStatus_canonical |].
  split; [apply mapTrexPayStatus_lower, toLowerCase_toUpperCase |].
  split; [apply mapTrexPayStatus_lower, toLowerCase_idem |].
  casing_to_eqb. unfold mapTrexPayStatus.
  generalize (Js.toLowerCase s) as l. intros l. cbv zeta.
  split_on_word l "paid".
  split_on_word l "approved".
  split_on_word l "completed".
  split_on_word l "cancelled".
  split_on_word l "canceled".
  split_on_word l "refused".
  split_on_word l "expired".
  split_on_word l "pending".
  split_on_word l "waiting_payment".
  simpl. intuition congruence.
Qed.

(** The mapper at a mixed-case input of each class. *)
Lemma mapTrexPayStatus_spec_witness :
  mapTrexPayStatus "ApProVed" = "paid"
  ∧ mapTrexPayStatus "REFUSED" = "cancelled"
  ∧ mapTrexPayStatus "Waiting_Payment" = "pending".
Proof.
  split; [| split].
  - destruct (mapTrexPayStatus_spec "ApProVed") as (_ & _ & _ & H & _).
    apply H. reflexivity.
  - destruct (mapTrexPayStatus_spec "REFUSED") as (_ & _ & _ & _ & H & _).
    apply H. reflexivity.
  - destruct (mapTrexPayStatus_spec "Waiting_Payment") as (_ & _ & _ & _ & _ & _ & _ & H).
    apply H. reflexivity.
Defined.

(** ** Webhook verifier *)

Lemma truthy_false_iff (s : string) : Js.truthy s = false ↔ s = "".
Proof. destruct s; simpl; split; congruence. Qed.

Lemma truthy_true_iff (s : string) : Js.truthy s = true ↔ s ≠ "".
Proof. destruct s; simpl; split; congruence. Qed.

Lemma Buffer_from_inj (s t : string) : Js.Buffer_from s = Js.Buffer_from t → s = t.
Proof.
  unfold Js.Buffer_from. intros Heq.
  rewrite <- (string_of_list_ascii_of_string s), <- (string_of_list_ascii_of_string t).
  by rewrite Heq.
Qed.

(** The comparison, with its exception caught, is equality of the buffers. *)
Lemma timingSafeEqual_caught (a b : list ascii) :
  match timingSafeEqual a b with Some r => r | None => false end = true ↔ a = b.
Proof.
  unfold timingSafeEqual.
  destruct (Nat.eqb_spec (length a) (length b)) as [Hlen | Hlen].
  - apply bool_decide_eq_true.
  - split; [done |]. intros ->. done.
Qed.

(** C3. [verifyTrexPaySignature] answers false when the signature or the
    secret is empty; when both are non-empty it answers true exactly when the
    signature is ["sha256="] followed by the hex HMAC-SHA256 of the JSON
    serialization of the payload under the secret, the two compared byte by
    byte. *)
Theorem verifyTrexPaySignature_spec `{Runtime}
    (payload : TrexPayWebhookPayload) (sig secret : string) :
  (sig = "" ∨ secret = "" → verifyTrexPaySignature payload sig secret = false)
  ∧ (sig ≠ "" → secret ≠ "" →
     (verifyTrexPaySignature payload sig secret = true
      ↔ sig = "sha256=" ++ HMAC_SHA256_hex secret (JSON_stringify payload))
     ∧ (verifyTrexPaySignature payload sig secret = true
        ↔ Js.Buffer_from sig
          = Js.Buffer_from ("sha256=" ++ HMAC_SHA256_hex secret (JSON_stringify payload)))).
Proof.
  unfold verifyTrexPaySignature. split.
  - intros [-> | ->]; [done |]. by rewrite orb_true_r.
  - intros Hsig Hsecret.
    apply truthy_true_iff in Hsig, Hsecret. rewrite Hsig, Hsecret. cbn [negb orb].
    rewrite timingSafeEqual_caught. split; [| done].
    split; [apply Buffer_from_inj | by intros ->].
Qed.

(** A signed sample payload verifies; the same signature under no secret
    does not. *)
Lemma verifyTrexPaySignature_spec_witness :
  @verifyTrexPaySignature Sample.runtime (Sample.payload "tx-1" "approved" None)
    "sha256=5d5c2f6e1b0a4c3d9e8f7a6b5c4d3e2f1a0b9c8d7e6f5a4b3c2d1e0f9a8b7c6d" "s3cr3t" = true
  ∧ @verifyTrexPaySignature Sample.runtime (Sample.payload "tx-1" "approved" None)
      "sha256=5d5c2f6e1b0a4c3d9e8f7a6b5c4d3e2f1a0b9c8d7e6f5a4b3c2d1e0f9a8b7c6d" "" = false.
Proof.
  split.
  - apply (proj2 (@verifyTrexPaySignature_spec Sample.runtime
                    (Sample.payload "tx-1" "approved" None)
                    "sha256=5d5c2f6e1b0a4c3d9e8f7a6b5c4d3e2f1a0b9c8d7e6f5a4b3c2d1e0f9a8b7c6d"
                    "s3cr3t")); [discriminate | discriminate | reflexivity].
  - apply (proj1 (@verifyTrexPaySignature_spec Sample.runtime
                    (Sample.payload "tx-1" "approved" None)
                    "sha256=5d5c2f6e1b0a4c3d9e8f7a6b5c4d3e2f1a0b9c8d7e6f5a4b3c2d1e0f9a8b7c6d"
                    "")). right. reflexivity.
Defined.

(** ** Gateway client *)

Lemma or_str_truthy (o : option string) :
  Js.truthy (Js.or_str o "") = Js.truthy_opt o.
Proof. destruct o as [[|]|]; reflexivity. Qed.

Lemma JsVal_or_truthy (a b : JsValue) :
  JsVal.truthy (JsVal.or a b) = JsVal.truthy a || JsVal.truthy b.
Proof. unfold JsVal.or. destruct (JsVal.truthy a) eqn:Ha; simpl; [exact Ha | done]. Qed.

Lemma JsVal_or_cases (a b : JsValue) : JsVal.or a b = a ∨ JsVal.or a b = b.
Proof. unfold JsVal.or. destruct (JsVal.truthy a); auto. Qed.

Lemma JsVal_truthy_not_nullish (v : JsValue) (name : string) :
  JsVal.truthy (JsVal.prop v name) = true → JsVal.nullish v = false.
Proof. destruct v; simpl; congruence. Qed.

Lemma JsVal_truthy_string (v : JsValue) (s : string) :
  JsVal.truthy v = true → v = JString s → s ≠ "".
Proof. intros Hv ->. by apply truthy_true_iff. Qed.

Lemma transaction_id_fields_spec (name : string) :
  name ∈ transaction_id_fields
  ↔ name = "transaction_id" ∨ name = "id" ∨ name = "idTransaction".
Proof.
  unfold transaction_id_fields.
  rewrite !elem_of_cons, elem_of_nil. tauto.
Qed.

(** C7. When the token or the secret is unset, [createTrexPayPix] returns a
    failure result with an error message and makes no outbound call. *)
Theorem createTrexPayPix_unconfigured (e : Env) (fetch : OutboundCall → FetchOutcome)
    (request : TrexPayCreatePixRequest) :
  credentials_unset e →
  success (createTrexPayPix e fetch request).1 = false
  ∧ error (createTrexPayPix e fetch request).1
    = JString "Credenciais TrexPay não configuradas"
  ∧ (createTrexPayPix e fetch request).2 = [].
Proof.
  intros Hunset. unfold createTrexPayPix, TREXPAY_TOKEN, TREXPAY_SECRET.
  rewrite !or_str_truthy.
  destruct Hunset as [-> | ->]; simpl; [done |].
  rewrite orb_true_r. done.
Qed.

Lemma createTrexPayPix_unconfigured_witness :
  credentials_unset Sample.env_unsigned
  ∧ success (createTrexPayPix Sample.env_unsigned
               (Sample.gateway 200 (JObject {[ "id" := JString "tx-1" ]}))
               Sample.charge).1 = false
  ∧ (createTrexPayPix Sample.env_unsigned
       (Sample.gateway 200 (JObject {[ "id" := JString "tx-1" ]}))
       Sample.charge).2 = [].
Proof.
  assert (Hu : credentials_unset Sample.env_unsigned) by (right; reflexivity).
  split; [exact Hu |].
  destruct (createTrexPayPix_unconfigured Sample.env_unsigned
              (Sample.gateway 200 (JObject {[ "id" := JString "tx-1" ]}))
              Sample.charge Hu) as (Hs & _ & Hc).
  split; [exact Hs | exact Hc].
Defined.

(** C6 as stated fails: a 2xx response whose body has the field
    [transaction_id], but empty, gives a success result without transaction
    identifier. *)
Lemma createTrexPayPix_field_name_counterexample :
  ¬ (∀ (e : Env) (fetch : OutboundCall → FetchOutcome)
       (request : TrexPayCreatePixRequest) (status : Z) (body : JsValue),
       credentials_configured e →
       fetch (gateway_call e request) = FetchResponse status (JsonValue body) →
       response_ok status = true →
       (∃ name, name ∈ transaction_id_fields ∧ has_field body name) →
       success (createTrexPayPix e fetch request).1 = true
       ∧ JsVal.truthy (transaction_id (createTrexPayPix e fetch request).1) = true).
Proof.
  intros Hclaim.
  destruct (Hclaim Sample.env_signed
              (Sample.gateway 200 (JObject {[ "transaction_id" := JString "" ]}))
              Sample.charge 200%Z (JObject {[ "transaction_id" := JString "" ]}))
    as [_ Hid].
  - split; reflexivity.
  - reflexivity.
  - reflexivity.
  - exists "transaction_id". split; [apply transaction_id_fields_spec; auto |].
    simpl. rewrite lookup_singleton_eq. by eexists.
  - vm_compute in Hid. discriminate.
Qed.

(** C6, amended. With configured credentials, a 2xx response whose body
    holds a truthy value (a non-empty string, say) under [transaction_id],
    [id] or [idTransaction] gives a success result whose transaction
    identifier is one of those values and is truthy, so not the empty string;
    one outbound call was made. *)
Theorem createTrexPayPix_success (e : Env) (fetch : OutboundCall → FetchOutcome)
    (request : TrexPayCreatePixRequest) (status : Z) (body : JsValue) :
  credentials_configured e →
  fetch (gateway_call e request) = FetchResponse status (JsonValue body) →
  response_ok status = true →
  (∃ name, name ∈ transaction_id_fields ∧ JsVal.truthy (JsVal.prop body name) = true) →
  success (createTrexPayPix e fetch request).1 = true
  ∧ JsVal.truthy (transaction_id (createTrexPayPix e fetch request).1) = true
  ∧ (∃ name, name ∈ transaction_id_fields
             ∧ transaction_id (createTrexPayPix e fetch request).1 = JsVal.prop body name)
  ∧ (∀ s, transaction_id (createTrexPayPix e fetch request).1 = JString s → s ≠ "")
  ∧ (createTrexPayPix e fetch request).2 = [gateway_call e request].
Proof.
  intros [Htok Hsec] Hfetch Hok (name & Hname & Htruthy).
  pose proof (JsVal_truthy_not_nullish _ _ Htruthy) as Hnn.
  unfold createTrexPayPix. rewrite Htok, Hsec. cbn [negb orb].
  rewrite Hfetch, Hok, Hnn. cbn [negb fst snd success transaction_id].
  assert (Hany : JsVal.truthy
                   (JsVal.or (JsVal.or (JsVal.prop body "transaction_id")
                                       (JsVal.prop body "id"))
                             (JsVal.prop body "idTransaction")) = true).
  { rewrite !JsVal_or_truthy.
    apply transaction_id_fields_spec in Hname as [-> | [-> | ->]];
      rewrite Htruthy; rewrite ?orb_true_r; reflexivity. }
  split; [done |]. split; [exact Hany |]. split; [| split; [| done]].
  - destruct (JsVal_or_cases (JsVal.or (JsVal.prop body "transaction_id")
                                        (JsVal.prop body "id"))
                              (JsVal.prop body "idTransaction")) as [-> | ->];
      [| exists "idTransaction"; rewrite transaction_id_fields_spec; auto].
    destruct (JsVal_or_cases (JsVal.prop body "transaction_id")
                             (JsVal.prop body "id")) as [-> | ->];
      [exists "transaction_id" | exists "id"];
      rewrite transaction_id_fields_spec; auto.
  - intros s Hs. exact (JsVal_truthy_string _ _ Hany Hs).
Qed.

Lemma createTrexPayPix_success_witness :
  success (createTrexPayPix Sample.env_signed
             (Sample.gateway 201 (JObject {[ "idTransaction" := JString "tx-1" ]}))
             Sample.charge).1 = true
  ∧ transaction_id (createTrexPayPix Sample.env_signed
                      (Sample.gateway 201 (JObject {[ "idTransaction" := JString "tx-1" ]}))
                      Sample.charge).1 = JString "tx-1".
Proof.
  destruct (createTrexPayPix_success Sample.env_signed
              (Sample.gateway 201 (JObject {[ "idTransaction" := JString "tx-1" ]}))
              Sample.charge 201%Z (JObject {[ "idTransaction" := JString "tx-1" ]}))
    as (Hs & _).
  - split; reflexivity.
  - reflexivity.
  - reflexivity.
  - exists "idTransaction". split; [apply transaction_id_fields_spec; auto | reflexivity].
  - split; [exact Hs | reflexivity].
Defined.

(** ** Transaction store *)

(** What [updateTransactionStatus] leaves in the record it finds. *)
Lemma updateTransactionStatus_lookup (store : gmap string Transaction)
    (tid new_status : string) (d : option Date) (t : Transaction) :
  store !! tid = Some t →
  updateTransactionStatus tid new_status d store !! tid
  = Some {| orderId := orderId t; status := new_status; amount := amount t;
            customer := customer t; trackingParams := trackingParams t;
            products := products t; createdAt := createdAt t;
            paidAt := match d with Some x => Some x | None => paidAt t end |}.
Proof.
  intros Ht. unfold updateTransactionStatus. rewrite Ht, lookup_insert_eq.
  by destruct d.
Qed.

Lemma updateTransactionStatus_absent (store : gmap string Transaction)
    (tid new_status : string) (d : option Date) :
  store !! tid = None → updateTransactionStatus tid new_status d store = store.
Proof. intros Ht. unfold updateTransactionStatus. by rewrite Ht. Qed.

Lemma updateTransactionStatus_other (store : gmap string Transaction)
    (tid other new_status : string) (d : option Date) :
  other ≠ tid →
  updateTransactionStatus tid new_status d store !! other = store !! other.
Proof.
  intros Hne. unfold updateTransactionStatus.
  destruct (store !! tid); [| done]. by rewrite lookup_insert_ne.
Qed.

Lemma updateTransactionStatus_twice (store : gmap string Transaction)
    (tid new_status : string) (d : option Date) :
  updateTransactionStatus tid new_status d
    (updateTransactionStatus tid new_status d store)
  = updateTransactionStatus tid new_status d store.
Proof.
  destruct (store !! tid) as [t |] eqn:Ht.
  - unfold updateTransactionStatus at 1.
    rewrite (updateTransactionStatus_lookup _ _ _ _ _ Ht).
    unfold updateTransactionStatus. rewrite Ht, insert_insert_eq.
    by destruct d.
  - by rewrite !(updateTransactionStatus_absent _ _ _ _ Ht).
Qed.

(** C8. For an id present in the store and a terminal status, calling
    [updateTransactionStatus] twice with the same arguments leaves the same
    store, hence the same record, as calling it once. *)
Theorem updateTransactionStatus_idempotent (store : gmap string Transaction)
    (tid new_status : string) (d : option Date) :
  is_Some (store !! tid) →
  new_status ∈ terminal_statuses →
  updateTransactionStatus tid new_status d
    (updateTransactionStatus tid new_status d store)
  = updateTransactionStatus tid new_status d store
  ∧ updateTransactionStatus tid new_status d
      (updateTransactionStatus tid new_status d store) !! tid
    = updateTransactionStatus tid new_status d store !! tid.
Proof.
  intros _ _. by rewrite updateTransactionStatus_twice.
Qed.

Lemma updateTransactionStatus_idempotent_witness :
  updateTransactionStatus "tx-1" "paid" (Some (ValidDate Sample.paid_at_ms))
    (updateTransactionStatus "tx-1" "paid" (Some (ValidDate Sample.paid_at_ms))
       Sample.store_pending)
  = Sample.store_paid.
Proof.
  destruct (updateTransactionStatus_idempotent Sample.store_pending "tx-1" "paid"
              (Some (ValidDate Sample.paid_at_ms))) as [Hstore _].
  - by eexists.
  - unfold terminal_statuses. apply elem_of_cons. auto.
  - exact Hstore.
Defined.

(** C9. [updateTransactionStatus] on an id that is not in the store leaves
    the store as it is; on an id that is in the store it changes the status,
    and the paid date when one is supplied, and nothing else: the other fields
    of the record, the other records and the set of ids stay the same. *)
Theorem updateTransactionStatus_frame (store : gmap string Transaction)
    (tid new_status : string) (d : option Date) :
  (store !! tid = None → updateTransactionStatus tid new_status d store = store)
  ∧ (∀ t, store !! tid = Some t →
       ∃ t', updateTransactionStatus tid new_status d store !! tid = Some t'
             ∧ status t' = new_status
             ∧ paidAt t' = match d with Some x => Some x | None => paidAt t end
             ∧ orderId t' = orderId t
             ∧ amount t' = amount t
             ∧ customer t' = customer t
             ∧ trackingParams t' = trackingParams t
             ∧ products t' = products t
             ∧ createdAt t' = createdAt t)
  ∧ (∀ other, other ≠ tid →
       updateTransactionStatus tid new_status d store !! other = store !! other)
  ∧ dom (updateTransactionStatus tid new_status d store) = dom store.
Proof.
  split; [apply updateTransactionStatus_absent |].
  split.
  { intros t Ht. eexists. split; [by apply updateTransactionStatus_lookup |].
    simpl. repeat split. }
  split.
  { intros other Hne. by apply updateTransactionStatus_other. }
  unfold updateTransactionStatus.
  destruct (store !! tid) as [t |] eqn:Ht; [| done].
  rewrite dom_insert_L. apply elem_of_dom_2 in Ht.
  apply subseteq_union_1_L. by apply singleton_subseteq_l.
Qed.

Lemma updateTransactionStatus_frame_witness :
  updateTransactionStatus "tx-404" "paid" None Sample.store_pending = Sample.store_pending
  ∧ updateTransactionStatus "tx-1" "expired" None Sample.store_pending !! "tx-404"
    = Sample.store_pending !! "tx-404".
Proof.
  destruct (updateTransactionStatus_frame Sample.store_pending "tx-404" "paid" None)
    as (Habsent & _).
  destruct (updateTransactionStatus_frame Sample.store_pending "tx-1" "expired" None)
    as (_ & _ & Hother & _).
  split.
  - apply Habsent. reflexivity.
  - apply Hother. discriminate.
Defined.

(** ** Webhook route *)

Section Webhook.

Context `{Runtime}.
Variables (e : Env) (now : Z) (request : WebhookRequest).
Variable store : gmap string Transaction.
Variable payload : TrexPayWebhookPayload.
Hypothesis Hparse : JSON_parse (rawBody request) = Some payload.

(** Past the signature check the handler looks the transaction up. *)
Lemma POST_accepted :
  signature_accepted e payload request →
  WebhookRoute.POST e now request store
  = match WebhookRoute.transactionId_of (payload_data payload) with
    | Some tid =>
        match store !! tid with
        | Some _ =>
            let mapped := mapTrexPayStatus (data_status (payload_data payload)) in
            (json_response (ProcessedBody true mapped),
             updateTransactionStatus tid mapped
               (WebhookRoute.paidAt_of now mapped (payload_data payload)) store)
        | None => (acknowledged, store)
        end
    | None => (acknowledged, store)
    end.
Proof.
  intros Hgate. unfold WebhookRoute.POST. rewrite Hparse.
  assert (Hif : Js.truthy (WebhookRoute.signature_of request)
                && Js.truthy_opt (env_TREXPAY_SECRET e)
                && negb (verifyTrexPaySignature payload
                           (WebhookRoute.signature_of request) (TREXPAY_SECRET e))
                = false).
  { destruct Hgate as [-> | [-> | ->]]; [done | | ].
    - by rewrite andb_false_r.
    - by rewrite andb_false_r. }
  rewrite Hif. unfold getTransaction. reflexivity.
Qed.

(** A request that fails the signature check is answered 401. *)
Lemma POST_rejected :
  ¬ signature_accepted e payload request →
  WebhookRoute.POST e now request store
  = ({| http_status := 401; http_body := ErrorBody "Invalid signature" |}, store).
Proof.
  intros Hgate. unfold WebhookRoute.POST. rewrite Hparse.
  unfold signature_accepted in Hgate.
  destruct (Js.truthy (WebhookRoute.signature_of request)) eqn:Hs.
  - destruct (Js.truthy_opt (env_TREXPAY_SECRET e)) eqn:Hk; [| tauto].
    destruct (verifyTrexPaySignature payload (WebhookRoute.signature_of request)
                (TREXPAY_SECRET e)) eqn:Hv; [tauto | done].
  - apply truthy_false_iff in Hs. tauto.
Qed.

End Webhook.

(** The handler never writes the store for a transaction it does not know. *)
Lemma POST_unknown_store `{Runtime} (e : Env) (now : Z) (request : WebhookRequest)
    (store : gmap string Transaction) (payload : TrexPayWebhookPayload) :
  JSON_parse (rawBody request) = Some payload →
  unknown_transaction (payload_data payload) store →
  (WebhookRoute.POST e now request store).2 = store.
Proof.
  intros Hparse Hunknown. unfold WebhookRoute.POST. rewrite Hparse.
  destruct (_ && _ && _); [done |].
  destruct (WebhookRoute.transactionId_of (payload_data payload)) as [tid |] eqn:Htid;
    [| done].
  unfold getTransaction. by rewrite (Hunknown tid Htid).
Qed.

(** C2. A webhook request whose signature header is empty, or that arrives
    while [TREXPAY_SECRET] is unset, is processed without any signature
    verification: for a known transaction id the handler maps the status,
    updates the stored record and answers HTTP 200 with [success: true],
    whatever HMAC the platform computes. *)
Theorem POST_without_verification `{Runtime} (e : Env) (now : Z)
    (request : WebhookRequest) (store : gmap string Transaction)
    (payload : TrexPayWebhookPayload) (tid : string) (t : Transaction) :
  WebhookRoute.signature_of request = "" ∨ Js.truthy_opt (env_TREXPAY_SECRET e) = false →
  JSON_parse (rawBody request) = Some payload →
  WebhookRoute.transactionId_of (payload_data payload) = Some tid →
  store !! tid = Some t →
  let mapped := mapTrexPayStatus (data_status (payload_data payload)) in
  WebhookRoute.POST e now request store
  = ({| http_status := 200; http_body := ProcessedBody true mapped |},
     updateTransactionStatus tid mapped
       (WebhookRoute.paidAt_of now mapped (payload_data payload)) store)
  ∧ ∃ t', (WebhookRoute.POST e now request store).2 !! tid = Some t'
          ∧ status t' = mapped
          ∧ paidAt t' = match WebhookRoute.paidAt_of now mapped (payload_data payload) with
                        | Some d => Some d
                        | None => paidAt t
                        end.
Proof.
  intros Hunsigned Hparse Htid Ht mapped.
  assert (Hgate : signature_accepted e payload request).
  { unfold signature_accepted. tauto. }
  rewrite (POST_accepted e now request store payload Hparse Hgate), Htid, Ht.
  split; [done |].
  eexists. split; [by apply updateTransactionStatus_lookup |]. done.
Qed.

Lemma POST_without_verification_witness :
  @WebhookRoute.POST Sample.runtime Sample.env_unsigned 1705320060000
    (Sample.request (Some "sha256=forged")
       (Sample.payload "tx-1" "approved" (Some Sample.paid_at_text)))
    Sample.store_pending
  = ({| http_status := 200; http_body := ProcessedBody true "paid" |}, Sample.store_paid).
Proof.
  destruct (@POST_without_verification Sample.runtime Sample.env_unsigned 1705320060000
              (Sample.request (Some "sha256=forged")
                 (Sample.payload "tx-1" "approved" (Some Sample.paid_at_text)))
              Sample.store_pending
              (Sample.payload "tx-1" "approved" (Some Sample.paid_at_text))
              "tx-1"
              {| orderId := data_orderId Sample.order; status := "pending";
                 amount := data_tx_amount Sample.order;
                 customer := data_customer Sample.order;
                 trackingParams := data_trackingParams Sample.order;
                 products := data_products Sample.order;
                 createdAt := ValidDate Sample.created_ms; paidAt := None |})
    as [Hpost _].
  - right. reflexivity.
  - reflexivity.
  - reflexivity.
  - reflexivity.
  - rewrite Hpost. vm_compute. reflexivity.
Defined.

(** C4 as stated fails: with a secret configured, a request for an unknown
    transaction whose signature does not verify is answered 401, not 200. *)
Lemma POST_unknown_counterexample :
  ¬ (∀ (R : Runtime) (e : Env) (now : Z) (request : WebhookRequest)
       (store : gmap string Transaction) (payload : TrexPayWebhookPayload),
       JSON_parse (rawBody request) = Some payload →
       unknown_transaction (payload_data payload) store →
       WebhookRoute.POST e now request store
       = ({| http_status := 200;
             http_body := AckBody true "Transaction not found but acknowledged" |},
          store)).
Proof.
  intros Hclaim.
  specialize (Hclaim Sample.runtime Sample.env_signed 1705320060000%Z
                (Sample.request (Some "sha256=forged")
                   (Sample.payload "tx-404" "approved" None))
                Sample.store_pending (Sample.payload "tx-404" "approved" None)).
  assert (Hpost : @WebhookRoute.POST Sample.runtime Sample.env_signed 1705320060000
                    (Sample.request (Some "sha256=forged")
                       (Sample.payload "tx-404" "approved" None))
                    Sample.store_pending
                  = ({| http_status := 401; http_body := ErrorBody "Invalid signature" |},
                     Sample.store_pending)).
  { vm_compute. reflexivity. }
  rewrite Hpost in Hclaim.
  assert (Habs : ({| http_status := 401; http_body := ErrorBody "Invalid signature" |},
                  Sample.store_pending)
                 = ({| http_status := 200;
                       http_body := AckBody true "Transaction not found but acknowledged" |},
                    Sample.store_pending)).
  { apply Hclaim; [reflexivity |].
    intros tid Htid. vm_compute in Htid. injection Htid as <-. reflexivity. }
  discriminate Habs.
Qed.

(** C4, amended. A webhook request with valid JSON that gets past the
    signature check (no signature header, no secret configured, or a valid
    signature) and whose transaction id is not in the store is answered HTTP
    200 with [success: true] and the message "Transaction not found but
    acknowledged"; signed or not, the store is left as it was. *)
Theorem POST_unknown_acknowledged `{Runtime} (e : Env) (now : Z)
    (request : WebhookRequest) (store : gmap string Transaction)
    (payload : TrexPayWebhookPayload) :
  JSON_parse (rawBody request) = Some payload →
  unknown_transaction (payload_data payload) store →
  (signature_accepted e payload request →
   WebhookRoute.POST e now request store
   = ({| http_status := 200;
         http_body := AckBody true "Transaction not found but acknowledged" |},
      store))
  ∧ (WebhookRoute.POST e now request store).2 = store.
Proof.
  intros Hparse Hunknown. split; [| by eapply POST_unknown_store].
  intros Hgate.
  rewrite (POST_accepted e now request store payload Hparse Hgate).
  destruct (WebhookRoute.transactionId_of (payload_data payload)) as [tid |] eqn:Htid;
    [| done].
  by rewrite (Hunknown tid Htid).
Qed.

Lemma POST_unknown_acknowledged_witness :
  @WebhookRoute.POST Sample.runtime Sample.env_unsigned 1705320060000
    (Sample.request None (Sample.payload "tx-404" "approved" None))
    Sample.store_pending
  = ({| http_status := 200;
        http_body := AckBody true "Transaction not found but acknowledged" |},
     Sample.store_pending).
Proof.
  destruct (@POST_unknown_acknowledged Sample.runtime Sample.env_unsigned 1705320060000
              (Sample.request None (Sample.payload "tx-404" "approved" None))
              Sample.store_pending (Sample.payload "tx-404" "approved" None))
    as [Hack _].
  - reflexivity.
  - intros tid Htid. vm_compute in Htid. injection Htid as <-. reflexivity.
  - apply Hack. left. reflexivity.
Defined.

(** ** Status transitions *)

(** C1 as stated fails: a record that a webhook has marked paid is put back
    to pending by a later webhook. *)
Lemma status_transition_counterexample :
  ¬ (∀ (R : Runtime) (e : Env) (ops : list Op) (store : gmap string Transaction)
       (op : Op) (tid : string) (t t' : Transaction),
       run e ops store !! tid = Some t →
       run e (ops ++ [op]) store !! tid = Some t' →
       status t' = status t ∨ allowed_transition (status t) (status t')).
Proof.
  intros Hclaim.
  pose (ops := [ OpSave Sample.created_ms "tx-1" Sample.order;
                 OpWebhook 1705320060000
                   (Sample.request None
                      (Sample.payload "tx-1" "approved" (Some Sample.paid_at_text))) ]).
  pose (op := OpWebhook 1705320120000
                (Sample.request None (Sample.payload "tx-1" "waiting_payment" None))).
  destruct (@run Sample.runtime Sample.env_unsigned ops ∅ !! "tx-1") as [t |] eqn:Ht;
    [| vm_compute in Ht; discriminate].
  destruct (@run Sample.runtime Sample.env_unsigned (ops ++ [op]) ∅ !! "tx-1")
    as [t' |] eqn:Ht'; [| vm_compute in Ht'; discriminate].
  specialize (Hclaim Sample.runtime Sample.env_unsigned ops ∅ op "tx-1" t t' Ht Ht').
  vm_compute in Ht. injection Ht as <-.
  vm_compute in Ht'. injection Ht' as <-.
  destruct Hclaim as [Hsame | [Hpending _]]; simpl in *; discriminate.
Qed.

(** C1, amended. For a record in the store, [updateTransactionStatus] sets
    the status to the one given, and a webhook accepted for its id sets it to
    the mapped status, one of pending, paid, cancelled and expired, whatever
    the status was: a pending record moves to paid, cancelled or expired as
    the state machine says, and a terminal status is overwritten like any
    other.  A webhook never removes a record, and leaves it alone or gives it
    a canonical status. *)
Theorem status_overwritten `{Runtime} (e : Env) (store : gmap string Transaction)
    (tid : string) (t : Transaction) :
  store !! tid = Some t →
  (∀ new_status d,
     ∃ t', step e store (OpUpdateStatus tid new_status d) !! tid = Some t'
           ∧ status t' = new_status)
  ∧ (∀ now request payload,
       JSON_parse (rawBody request) = Some payload →
       signature_accepted e payload request →
       WebhookRoute.transactionId_of (payload_data payload) = Some tid →
       ∃ t', step e store (OpWebhook now request) !! tid = Some t'
             ∧ status t' = mapTrexPayStatus (data_status (payload_data payload))
             ∧ status t' ∈ canonical_statuses)
  ∧ (∀ now request,
       ∃ t', step e store (OpWebhook now request) !! tid = Some t'
             ∧ (t' = t ∨ status t' ∈ canonical_statuses)).
Proof.
  intros Ht. split; [| split].
  - intros new_status d. simpl. eexists.
    split; [by apply updateTransactionStatus_lookup | done].
  - intros now request payload Hparse Hgate Htid. simpl.
    rewrite (POST_accepted e now request store payload Hparse Hgate), Htid, Ht.
    cbn [snd]. eexists.
    split; [by apply updateTransactionStatus_lookup |].
    split; [done | apply mapTrexPayStatus_canonical].
  - intros now request. simpl. unfold WebhookRoute.POST.
    destruct (JSON_parse (rawBody request)) as [payload |]; [| by eauto].
    destruct (_ && _ && _); [by eauto |].
    destruct (WebhookRoute.transactionId_of (payload_data payload)) as [k |];
      [| by eauto].
    unfold getTransaction.
    destruct (store !! k) as [tk |] eqn:Hk; [| by eauto].
    cbn [snd]. destruct (decide (k = tid)) as [-> | Hne].
    + eexists. split; [by apply updateTransactionStatus_lookup |].
      right. apply mapTrexPayStatus_canonical.
    + rewrite updateTransactionStatus_other by done. eauto.
Qed.

Lemma status_overwritten_witness :
  ∃ t', @step Sample.runtime Sample.env_unsigned Sample.store_paid
          (OpUpdateStatus "tx-1" "cancelled" None) !! "tx-1" = Some t'
        ∧ status t' = "cancelled".
Proof.
  destruct (@status_overwritten Sample.runtime Sample.env_unsigned Sample.store_paid "tx-1"
              {| orderId := data_orderId Sample.order; status := "paid";
                 amount := data_tx_amount Sample.order;
                 customer := data_customer Sample.order;
                 trackingParams := data_trackingParams Sample.order;
                 products := data_products Sample.order;
                 createdAt := ValidDate Sample.created_ms;
                 paidAt := Some (ValidDate Sample.paid_at_ms) |})
    as [Hupdate _].
  - reflexivity.
  - exact (Hupdate "cancelled" None).
Defined.

(** ** Status query route *)

(** The query of a record without paid date, or with a valid one, succeeds
    with the record's status and the date in ISO form, or null. *)
Lemma GET_found `{Runtime} (store : gmap string Transaction) (tid : string)
    (t : Transaction) :
  tid ≠ "" →
  store !! tid = Some t →
  paidAt t ≠ Some InvalidDate →
  ∃ iso, StatusRoute.GET store (Some tid)
         = {| http_status := 200;
              http_body := FoundBody true tid (orderId t) (status t) iso |}
         ∧ (paidAt t = None → iso = None)
         ∧ (∀ ms, paidAt t = Some (ValidDate ms) → Date_toISOString ms ≠ "" →
                  iso = Some (Date_toISOString ms)).
Proof.
  intros Htid Ht Hvalid. unfold StatusRoute.GET, getTransaction.
  apply truthy_true_iff in Htid. rewrite Htid, Ht. cbn [negb].
  destruct (paidAt t) as [[ms |] |]; [| done |].
  - simpl. eexists. split; [reflexivity |]. split; [done |].
    intros ms' [= <-] Hiso. apply truthy_true_iff in Hiso. by rewrite Hiso.
  - eexists. split; [reflexivity |]. split; [done |]. intros ms' [=].
Qed.

(** The query of an id that is not in the store succeeds with pending. *)
Lemma GET_not_found `{Runtime} (store : gmap string Transaction) (tid : string) :
  tid ≠ "" →
  store !! tid = None →
  StatusRoute.GET store (Some tid)
  = {| http_status := 200; http_body := NotFoundBody true tid "pending" |}.
Proof.
  intros Htid Ht. unfold StatusRoute.GET, getTransaction.
  apply truthy_true_iff in Htid. by rewrite Htid, Ht.
Qed.

(** A paid date that did not parse makes the query fail. *)
Lemma GET_invalid_date `{Runtime} (store : gmap string Transaction) (tid : string)
    (t : Transaction) :
  tid ≠ "" →
  store !! tid = Some t →
  paidAt t = Some InvalidDate →
  StatusRoute.GET store (Some tid)
  = {| http_status := 500; http_body := ErrorBody "Erro interno ao consultar status" |}.
Proof.
  intros Htid Ht Hbad. unfold StatusRoute.GET, getTransaction.
  apply truthy_true_iff in Htid. by rewrite Htid, Ht, Hbad.
Qed.

(** C10 at the failing input. A record exists under ["tx-1"]; a webhook
    reports it paid with a [paid_at] that is not a date; the status query for
    ["tx-1"] then answers HTTP 500 with an error body instead of the record's
    status. *)
Theorem GET_after_unparsed_paid_at :
  @WebhookRoute.POST Sample.runtime Sample.env_unsigned 1705320060000
    (Sample.request None (Sample.payload "tx-1" "paid" (Some "not-a-date")))
    Sample.store_pending
  = ({| http_status := 200; http_body := ProcessedBody true "paid" |},
     Sample.store_bad_date)
  ∧ (∃ t, Sample.store_bad_date !! "tx-1" = Some t
          ∧ status t = "paid" ∧ paidAt t = Some InvalidDate)
  ∧ @StatusRoute.GET Sample.runtime Sample.store_bad_date (Some "tx-1")
    = {| http_status := 500; http_body := ErrorBody "Erro interno ao consultar status" |}.
Proof.
  split; [vm_compute; reflexivity |]. split.
  - eexists. split; [vm_compute; reflexivity |]. split; reflexivity.
  - vm_compute. reflexivity.
Qed.

(** * Further properties *)

(** ** Gateway client: calls, failures and precedence *)

Lemma credentials_configured_dec (e : Env) :
  credentials_configured e
  ∨ negb (Js.truthy (TREXPAY_TOKEN e)) || negb (Js.truthy (TREXPAY_SECRET e)) = true.
Proof.
  unfold credentials_configured.
  destruct (Js.truthy (TREXPAY_TOKEN e)), (Js.truthy (TREXPAY_SECRET e)); auto.
Qed.

Ltac configured Hc :=
  let Ht := fresh "Htok" in
  let Hs := fresh "Hsec" in
  destruct Hc as [Ht Hs]; unfold createTrexPayPix; rewrite Ht, Hs; cbn [negb orb].

Lemma createTrexPayPix_calls_length (e : Env) (fetch : OutboundCall → FetchOutcome)
    (request : TrexPayCreatePixRequest) :
  (List.length (createTrexPayPix e fetch request).2 ≤ 1)%nat.
Proof.
  unfold createTrexPayPix.
  destruct (negb _ || negb _); [simpl; lia |].
  destruct (fetch (gateway_call e request)) as [err | status [err | body]];
    [simpl; lia | simpl; lia |].
  destruct (response_ok status), (JsVal.nullish body); simpl; lia.
Qed.

(** X1. [createTrexPayPix] makes a single attempt: whatever the gateway
    answers there is at most one outbound call, and with configured
    credentials exactly the one call built from the request. *)
Theorem createTrexPayPix_single_call (e : Env) (fetch : OutboundCall → FetchOutcome)
    (request : TrexPayCreatePixRequest) :
  (List.length (createTrexPayPix e fetch request).2 ≤ 1)%nat
  ∧ (credentials_configured e →
     (createTrexPayPix e fetch request).2 = [gateway_call e request]).
Proof.
  assert (Hconf : credentials_configured e →
                  (createTrexPayPix e fetch request).2 = [gateway_call e request]).
  { intros Hc. configured Hc.
    destruct (fetch (gateway_call e request)) as [err | status [err | body]];
      [done | done |].
    destruct (response_ok status), (JsVal.nullish body); done. }
  split; [| exact Hconf].
  destruct (credentials_configured_dec e) as [Hc | Hu].
  - rewrite (Hconf Hc). simpl. lia.
  - unfold createTrexPayPix. rewrite Hu. simpl. lia.
Qed.

Lemma createTrexPayPix_single_call_witness :
  (createTrexPayPix Sample.env_signed (fun _ => FetchThrows "TypeError: fetch failed")
     Sample.charge).2
  = [gateway_call Sample.env_signed Sample.charge].
Proof.
  apply (createTrexPayPix_single_call Sample.env_signed
           (fun _ => FetchThrows "TypeError: fetch failed") Sample.charge).
  split; reflexivity.
Defined.

(** X2. The result is a success exactly when the credentials are
    configured and the gateway answered the call with a 2xx status and a JSON
    body that is not null. *)
Theorem createTrexPayPix_succeeds_iff (e : Env) (fetch : OutboundCall → FetchOutcome)
    (request : TrexPayCreatePixRequest) :
  success (createTrexPayPix e fetch request).1 = true
  ↔ credentials_configured e
    ∧ ∃ status body,
        fetch (gateway_call e request) = FetchResponse status (JsonValue body)
        ∧ response_ok status = true
        ∧ JsVal.nullish body = false.
Proof.
  split.
  - destruct (credentials_configured_dec e) as [Hc | Hu].
    + intros Hs. split; [exact Hc |]. revert Hs. configured Hc.
      destruct (fetch (gateway_call e request)) as [err | status [err | body]];
        [done | done |].
      destruct (response_ok status) eqn:Hok, (JsVal.nullish body) eqn:Hn;
        try done.
      intros _. by exists status, body.
    + unfold createTrexPayPix. rewrite Hu. done.
  - intros [Hc (status & body & Hf & Hok & Hn)].
    configured Hc. by rewrite Hf, Hok, Hn.
Qed.

Lemma createTrexPayPix_succeeds_iff_witness :
  success (createTrexPayPix Sample.env_signed
             (Sample.gateway 204 (JObject ∅)) Sample.charge).1 = true.
Proof.
  apply (createTrexPayPix_succeeds_iff Sample.env_signed
           (Sample.gateway 204 (JObject ∅)) Sample.charge).
  split; [split; reflexivity |].
  exists 204%Z, (JObject ∅). repeat split.
Defined.

(** X3. A failure result carries no QR code, identifier or expiry, and a
    success result carries no error. *)
Theorem createTrexPayPix_result_shape (e : Env) (fetch : OutboundCall → FetchOutcome)
    (request : TrexPayCreatePixRequest) :
  (success (createTrexPayPix e fetch request).1 = false →
   qrcode (createTrexPayPix e fetch request).1 = JUndefined
   ∧ qrcode_base64 (createTrexPayPix e fetch request).1 = JUndefined
   ∧ transaction_id (createTrexPayPix e fetch request).1 = JUndefined
   ∧ txid (createTrexPayPix e fetch request).1 = JUndefined
   ∧ expires_at (createTrexPayPix e fetch request).1 = JUndefined)
  ∧ (success (createTrexPayPix e fetch request).1 = true →
     error (createTrexPayPix e fetch request).1 = JUndefined).
Proof.
  unfold createTrexPayPix.
  destruct (negb _ || negb _); [by split |].
  destruct (fetch (gateway_call e request)) as [err | status [err | body]];
    [by split | by split |].
  destruct (response_ok status), (JsVal.nullish body); by split.
Qed.

Lemma createTrexPayPix_result_shape_witness :
  transaction_id
    (createTrexPayPix Sample.env_signed
       (Sample.gateway 422 (JObject {[ "transaction_id" := JString "tx-1" ]}))
       Sample.charge).1
  = JUndefined.
Proof.
  destruct (createTrexPayPix_result_shape Sample.env_signed
              (Sample.gateway 422 (JObject {[ "transaction_id" := JString "tx-1" ]}))
              Sample.charge) as [Hfail _].
  destruct Hfail as (_ & _ & Hid & _); [reflexivity | exact Hid].
Defined.

(** X4. When the gateway answers with a status outside 2xx and a JSON body
    that is not null, the result is a failure whose error is the body's
    [message] if that is truthy, else its [error] if that is truthy, else
    "Erro ao criar PIX"; so the error is never empty. *)
Theorem createTrexPayPix_upstream_error (e : Env) (fetch : OutboundCall → FetchOutcome)
    (request : TrexPayCreatePixRequest) (status : Z) (body : JsValue) :
  credentials_configured e →
  fetch (gateway_call e request) = FetchResponse status (JsonValue body) →
  response_ok status = false →
  JsVal.nullish body = false →
  success (createTrexPayPix e fetch request).1 = false
  ∧ error (createTrexPayPix e fetch request).1
    = (if JsVal.truthy (JsVal.prop body "message") then JsVal.prop body "message"
       else if JsVal.truthy (JsVal.prop body "error") then JsVal.prop body "error"
       else JString "Erro ao criar PIX")
  ∧ JsVal.truthy (error (createTrexPayPix e fetch request).1) = true.
Proof.
  intros Hc Hf Hok Hn. configured Hc. rewrite Hf, Hok, Hn.
  cbn [negb fst success error failure_result].
  rewrite !JsVal_or_truthy. unfold JsVal.or.
  destruct (JsVal.truthy (JsVal.prop body "message")) eqn:Hm;
    destruct (JsVal.truthy (JsVal.prop body "error")) eqn:He;
    cbn [orb]; rewrite ?Hm, ?He; cbn [orb]; rewrite ?Hm, ?He; done.
Qed.

Lemma createTrexPayPix_upstream_error_witness :
  error (createTrexPayPix Sample.env_signed
           (Sample.gateway 422 (JObject {[ "error" := JString "CPF inválido" ]}))
           Sample.charge).1
  = JString "CPF inválido".
Proof.
  destruct (createTrexPayPix_upstream_error Sample.env_signed
              (Sample.gateway 422 (JObject {[ "error" := JString "CPF inválido" ]}))
              Sample.charge 422%Z (JObject {[ "error" := JString "CPF inválido" ]}))
    as (_ & Herr & _).
  - split; reflexivity.
  - reflexivity.
  - reflexivity.
  - reflexivity.
  - rewrite Herr. reflexivity.
Defined.

(** X5. A transport error, or a response body that is not JSON, gives a
    failure result whose error is the stringified exception; nothing is
    thrown to the caller. *)
Theorem createTrexPayPix_transport_error (e : Env) (fetch : OutboundCall → FetchOutcome)
    (request : TrexPayCreatePixRequest) (err : string) :
  credentials_configured e →
  fetch (gateway_call e request) = FetchThrows err
  ∨ (∃ status, fetch (gateway_call e request) = FetchResponse status (JsonThrows err)) →
  (createTrexPayPix e fetch request).1 = failure_result (JString err).
Proof.
  intros Hc Hf. configured Hc.
  destruct Hf as [-> | [status ->]]; done.
Qed.

Lemma createTrexPayPix_transport_error_witness :
  (createTrexPayPix Sample.env_signed (fun _ => FetchThrows "TypeError: fetch failed")
     Sample.charge).1
  = failure_result (JString "TypeError: fetch failed").
Proof.
  apply (createTrexPayPix_transport_error Sample.env_signed
           (fun _ => FetchThrows "TypeError: fetch failed") Sample.charge).
  - split; reflexivity.
  - left. reflexivity.
Defined.

(** X6. On success the transaction identifier is taken from
    [transaction_id], then [id], then [idTransaction]: the first of the three
    that is truthy, and the value of [idTransaction] when none is. *)
Theorem createTrexPayPix_id_precedence (e : Env) (fetch : OutboundCall → FetchOutcome)
    (request : TrexPayCreatePixRequest) (status : Z) (body : JsValue) :
  credentials_configured e →
  fetch (gateway_call e request) = FetchResponse status (JsonValue body) →
  response_ok status = true →
  JsVal.nullish body = false →
  transaction_id (createTrexPayPix e fetch request).1
  = (if JsVal.truthy (JsVal.prop body "transaction_id")
     then JsVal.prop body "transaction_id"
     else if JsVal.truthy (JsVal.prop body "id") then JsVal.prop body "id"
     else JsVal.prop body "idTransaction").
Proof.
  intros Hc Hf Hok Hn. configured Hc. rewrite Hf, Hok, Hn.
  cbn [negb fst transaction_id]. unfold JsVal.or.
  destruct (JsVal.truthy (JsVal.prop body "transaction_id")) eqn:Ha;
    destruct (JsVal.truthy (JsVal.prop body "id")) eqn:Hb;
    rewrite ?Ha, ?Hb; done.
Qed.

Lemma createTrexPayPix_id_precedence_witness :
  transaction_id
    (createTrexPayPix Sample.env_signed
       (Sample.gateway 200
          (JObject {[ "id" := JNumber 0; "idTransaction" := JString "tx-9" ]}))
       Sample.charge).1
  = JString "tx-9".
Proof.
  rewrite (createTrexPayPix_id_precedence Sample.env_signed
             (Sample.gateway 200
                (JObject {[ "id" := JNumber 0; "idTransaction" := JString "tx-9" ]}))
             Sample.charge 200%Z
             (JObject {[ "id" := JNumber 0; "idTransaction" := JString "tx-9" ]})).
  - reflexivity.
  - split; reflexivity.
  - reflexivity.
  - reflexivity.
  - reflexivity.
Defined.

(** ** Transaction store: round trip and composition *)

(** X7. [saveTransaction] followed by [getTransaction] gives back the data
    saved, stamped with the creation time and without paid date, whatever
    record was under the id before; the other ids are not touched. *)
Theorem saveTransaction_getTransaction (now : Z) (tid : string) (data : TransactionData)
    (store : gmap string Transaction) :
  getTransaction tid (saveTransaction now tid data store)
  = Some {| orderId := data_orderId data; status := data_tx_status data;
            amount := data_tx_amount data; customer := data_customer data;
            trackingParams := data_trackingParams data;
            products := data_products data;
            createdAt := ValidDate now; paidAt := None |}
  ∧ (∀ other, other ≠ tid →
       getTransaction other (saveTransaction now tid data store)
       = getTransaction other store)
  ∧ dom (saveTransaction now tid data store) = {[ tid ]} ∪ dom store.
Proof.
  unfold getTransaction, saveTransaction. split; [apply lookup_insert_eq |].
  split; [| apply dom_insert_L].
  intros other Hne. by apply lookup_insert_ne.
Qed.

Lemma saveTransaction_getTransaction_witness :
  getTransaction "tx-2" (saveTransaction 5 "tx-1" Sample.order Sample.store_paid)
  = getTransaction "tx-2" Sample.store_paid.
Proof.
  destruct (saveTransaction_getTransaction 5 "tx-1" Sample.order Sample.store_paid)
    as (_ & Hother & _).
  apply Hother. discriminate.
Defined.

(** X8. Updates of two different ids commute. *)
Theorem updateTransactionStatus_commute (store : gmap string Transaction)
    (a b sa sb : string) (da db : option Date) :
  a ≠ b →
  updateTransactionStatus a sa da (updateTransactionStatus b sb db store)
  = updateTransactionStatus b sb db (updateTransactionStatus a sa da store).
Proof.
  intros Hne. unfold updateTransactionStatus.
  destruct (store !! a) as [ta |] eqn:Ha; destruct (store !! b) as [tb |] eqn:Hb;
    rewrite ?lookup_insert_ne, ?Ha, ?Hb by done; try done.
  by apply insert_insert_ne.
Qed.

Lemma updateTransactionStatus_commute_witness :
  updateTransactionStatus "tx-1" "paid" None
    (updateTransactionStatus "tx-2" "expired" None
       (saveTransaction 7 "tx-2" Sample.order Sample.store_pending))
  = updateTransactionStatus "tx-2" "expired" None
      (updateTransactionStatus "tx-1" "paid" None
         (saveTransaction 7 "tx-2" Sample.order Sample.store_pending)).
Proof.
  apply (updateTransactionStatus_commute
           (saveTransaction 7 "tx-2" Sample.order Sample.store_pending)
           "tx-1" "tx-2" "paid" "expired" None None).
  discriminate.
Defined.

(** X9. Two updates of the same id amount to one: the status is the later
    one, and the paid date is the later one supplied, so an update without
    paid date keeps the date an earlier update set. *)
Theorem updateTransactionStatus_compose (store : gmap string Transaction)
    (tid s1 s2 : string) (d1 d2 : option Date) :
  updateTransactionStatus tid s2 d2 (updateTransactionStatus tid s1 d1 store)
  = updateTransactionStatus tid s2
      (match d2 with Some _ => d2 | None => d1 end) store.
Proof.
  unfold updateTransactionStatus.
  destruct (store !! tid) as [t |] eqn:Ht; [| by rewrite Ht].
  rewrite lookup_insert_eq, insert_insert_eq.
  by destruct d1, d2.
Qed.

(** The store after a webhook is the store before, or one update of it. *)
Lemma POST_store_cases `{Runtime} (e : Env) (now : Z) (request : WebhookRequest)
    (store : gmap string Transaction) :
  (WebhookRoute.POST e now request store).2 = store
  ∨ ∃ tid s d,
      (WebhookRoute.POST e now request store).2 = updateTransactionStatus tid s d store.
Proof.
  unfold WebhookRoute.POST.
  destruct (JSON_parse (rawBody request)) as [payload |]; [| by left].
  destruct (_ && _ && _); [by left |].
  destruct (WebhookRoute.transactionId_of (payload_data payload)) as [k |];
    [| by left].
  destruct (getTransaction k store); [| by left].
  right. by eexists _, _, _.
Qed.

Lemma same_order_refl (t : Transaction) : same_order t t.
Proof. by repeat split. Qed.

Lemma same_order_trans (t1 t2 t3 : Transaction) :
  same_order t1 t2 → same_order t2 t3 → same_order t1 t3.
Proof.
  unfold same_order. intros (? & ? & ? & ? & ? & ? & ?) (? & ? & ? & ? & ? & ? & ?).
  repeat split; try congruence. auto.
Qed.

Lemma updateTransactionStatus_same_order (store : gmap string Transaction)
    (k s tid : string) (d : option Date) (t : Transaction) :
  store !! tid = Some t →
  ∃ t', updateTransactionStatus k s d store !! tid = Some t' ∧ same_order t t'.
Proof.
  intros Ht. destruct (decide (tid = k)) as [-> | Hne].
  - eexists. split; [by apply updateTransactionStatus_lookup |].
    repeat split. simpl. intros Hp. destruct d; [by eexists | done].
  - exists t. rewrite updateTransactionStatus_other by done.
    split; [done | apply same_order_refl].
Qed.

Lemma updateTransactionStatus_dom (store : gmap string Transaction)
    (k s : string) (d : option Date) :
  dom (updateTransactionStatus k s d store) = dom store.
Proof.
  unfold updateTransactionStatus.
  destruct (store !! k) as [t |] eqn:Ht; [| done].
  rewrite dom_insert_L. apply elem_of_dom_2 in Ht.
  apply subseteq_union_1_L. by apply singleton_subseteq_l.
Qed.

(** One operation that is not a save keeps every record, up to status and
    paid date, and the set of ids. *)
Lemma step_keeps_records `{Runtime} (e : Env) (store : gmap string Transaction)
    (op : Op) (tid : string) (t : Transaction) :
  keeps_records op = true →
  store !! tid = Some t →
  (∃ t', step e store op !! tid = Some t' ∧ same_order t t')
  ∧ dom (step e store op) = dom store.
Proof.
  intros Hop Ht. destruct op as [now k data | k s d | now request]; [done | |].
  - simpl. split; [by apply updateTransactionStatus_same_order |].
    apply updateTransactionStatus_dom.
  - simpl. destruct (POST_store_cases e now request store) as [-> | (k & s & d & ->)].
    + split; [| done]. exists t. split; [done | apply same_order_refl].
    + split; [by apply updateTransactionStatus_same_order |].
      apply updateTransactionStatus_dom.
Qed.

Lemma step_keeps_dom `{Runtime} (e : Env) (store : gmap string Transaction) (op : Op) :
  keeps_records op = true → dom (step e store op) = dom store.
Proof.
  intros Hop. destruct op as [now k data | k s d | now request]; [done | |]; simpl.
  - apply updateTransactionStatus_dom.
  - destruct (POST_store_cases e now request store) as [-> | (k & s & d & ->)];
      [done | apply updateTransactionStatus_dom].
Qed.

(** X10. Along any history of status updates and webhooks, a record stays
    in the store with the order id, amount, customer, tracking parameters,
    products and creation date it was saved with, a paid date once set is
    never cleared, and no record is created or removed. *)
Theorem run_keeps_records `{Runtime} (e : Env) (ops : list Op)
    (store : gmap string Transaction) :
  forallb keeps_records ops = true →
  dom (run e ops store) = dom store
  ∧ ∀ tid t, store !! tid = Some t →
             ∃ t', run e ops store !! tid = Some t' ∧ same_order t t'.
Proof.
  unfold run. revert store.
  induction ops as [| op ops IH]; intros store Hops.
  - split; [done |]. intros tid t Ht. exists t. split; [done | apply same_order_refl].
  - simpl in Hops. apply andb_true_iff in Hops as [Hop Hops].
    destruct (IH (step e store op) Hops) as [Hdom Hrec].
    simpl. split.
    + by rewrite Hdom, step_keeps_dom.
    + intros tid t Ht.
      destruct (step_keeps_records e store op tid t Hop Ht) as [(t1 & Ht1 & H01) _].
      destruct (Hrec tid t1 Ht1) as (t2 & Ht2 & H12).
      exists t2. split; [done | by eapply same_order_trans].
Qed.

Lemma run_keeps_records_witness :
  ∃ t', @run Sample.runtime Sample.env_unsigned
          [ OpWebhook 1705320120000
              (Sample.request None (Sample.payload "tx-1" "refused" None));
            OpUpdateStatus "tx-1" "pending" None ]
          Sample.store_paid !! "tx-1" = Some t'
        ∧ is_Some (paidAt t').
Proof.
  destruct (@run_keeps_records Sample.runtime Sample.env_unsigned
              [ OpWebhook 1705320120000
                  (Sample.request None (Sample.payload "tx-1" "refused" None));
                OpUpdateStatus "tx-1" "pending" None ]
              Sample.store_paid)
    as [_ Hrec]; [reflexivity |].
  destruct (Hrec "tx-1"
              {| orderId := data_orderId Sample.order; status := "paid";
                 amount := data_tx_amount Sample.order;
                 customer := data_customer Sample.order;
                 trackingParams := data_trackingParams Sample.order;
                 products := data_products Sample.order;
                 createdAt := ValidDate Sample.created_ms;
                 paidAt := Some (ValidDate Sample.paid_at_ms) |})
    as (t' & Ht' & Hsame); [reflexivity |].
  exists t'. split; [exact Ht' |].
  destruct Hsame as (_ & _ & _ & _ & _ & _ & Hpaid). apply Hpaid. by eexists.
Defined.

(** ** Webhook route: answers, signatures, frame and redelivery *)

Lemma signature_accepted_dec `{Runtime} (e : Env) (payload : TrexPayWebhookPayload)
    (request : WebhookRequest) :
  signature_accepted e payload request ∨ ¬ signature_accepted e payload request.
Proof.
  unfold signature_accepted.
  destruct (decide (WebhookRoute.signature_of request = "")) as [Hs | Hs]; [by auto |].
  destruct (Js.truthy_opt (env_TREXPAY_SECRET e)); [| by auto].
  destruct (verifyTrexPaySignature payload (WebhookRoute.signature_of request)
              (TREXPAY_SECRET e)); [by auto |].
  right. intros [? | [? | ?]]; done.
Qed.

(** Past the signature check the answer is 200. *)
Lemma POST_accepted_status `{Runtime} (e : Env) (now : Z) (request : WebhookRequest)
    (store : gmap string Transaction) (payload : TrexPayWebhookPayload) :
  JSON_parse (rawBody request) = Some payload →
  signature_accepted e payload request →
  http_status (WebhookRoute.POST e now request store).1 = 200%Z.
Proof.
  intros Hparse Hgate.
  rewrite (POST_accepted e now request store payload Hparse Hgate).
  destruct (WebhookRoute.transactionId_of (payload_data payload)) as [k |]; [| done].
  by destruct (store !! k).
Qed.



Lemma verifyTrexPaySignature_expected `{Runtime} (payload : TrexPayWebhookPayload)
    (sig secret : string) :
  sig ≠ "" → secret ≠ "" →
  verifyTrexPaySignature payload sig secret
  = bool_decide (sig = "sha256=" ++ HMAC_SHA256_hex secret (JSON_stringify payload)).
Proof.
  intros Hsig Hsecret. unfold verifyTrexPaySignature.
  apply truthy_true_iff in Hsig, Hsecret. rewrite Hsig, Hsecret. cbn [negb orb].
  apply eq_true_iff_eq. rewrite timingSafeEqual_caught, bool_decide_eq_true.
  split; [apply Buffer_from_inj | by intros ->].
Qed.

Lemma TREXPAY_SECRET_configured (e : Env) (secret : string) :
  env_TREXPAY_SECRET e = Some secret → secret ≠ "" → TREXPAY_SECRET e = secret.
Proof.
  intros He Hs. unfold TREXPAY_SECRET. rewrite He. simpl.
  apply truthy_true_iff in Hs. by rewrite Hs.
Qed.

(** X12. With a secret configured, a webhook that carries a signature
    header is processed when the signature is the HMAC of the re-serialized
    payload under that secret, and answered 401 with the store untouched when
    it is anything else. *)
Theorem POST_signed `{Runtime} (e : Env) (now : Z) (request : WebhookRequest)
    (store : gmap string Transaction) (payload : TrexPayWebhookPayload)
    (secret : string) :
  env_TREXPAY_SECRET e = Some secret →
  secret ≠ "" →
  WebhookRoute.signature_of request ≠ "" →
  JSON_parse (rawBody request) = Some payload →
  (WebhookRoute.signature_of request
   = "sha256=" ++ HMAC_SHA256_hex secret (JSON_stringify payload) →
   http_status (WebhookRoute.POST e now request store).1 = 200%Z
   ∧ ∀ tid t, WebhookRoute.transactionId_of (payload_data payload) = Some tid →
              store !! tid = Some t →
              ∃ t', (WebhookRoute.POST e now request store).2 !! tid = Some t'
                    ∧ status t' = mapTrexPayStatus (data_status (payload_data payload)))
  ∧ (WebhookRoute.signature_of request
     ≠ "sha256=" ++ HMAC_SHA256_hex secret (JSON_stringify payload) →
     WebhookRoute.POST e now request store
     = ({| http_status := 401; http_body := ErrorBody "Invalid signature" |}, store)).
Proof.
  intros He Hsecret Hsig Hparse.
  pose proof (TREXPAY_SECRET_configured e secret He Hsecret) as Hk.
  pose proof (verifyTrexPaySignature_expected payload _ _ Hsig Hsecret) as Hv.
  split.
  - intros Heq.
    assert (Hgate : signature_accepted e payload request).
    { right; right. rewrite Hk, Hv. by apply bool_decide_eq_true. }
    split; [by apply (POST_accepted_status e now request store payload) |].
    intros tid t Htid Ht.
    rewrite (POST_accepted e now request store payload Hparse Hgate), Htid, Ht.
    eexists. split; [by apply updateTransactionStatus_lookup | done].
  - intros Hne. apply (POST_rejected e now request store payload Hparse).
    intros [Hs | [Hs | Hs]]; [done | |].
    + rewrite He in Hs. simpl in Hs. apply truthy_false_iff in Hs. done.
    + rewrite Hk, Hv in Hs. by apply bool_decide_eq_true in Hs.
Qed.

Lemma POST_signed_witness :
  http_status
    (@WebhookRoute.POST Sample.runtime Sample.env_signed 1705320060000
       (Sample.request
          (Some "sha256=5d5c2f6e1b0a4c3d9e8f7a6b5c4d3e2f1a0b9c8d7e6f5a4b3c2d1e0f9a8b7c6d")
          (Sample.payload "tx-1" "approved" (Some Sample.paid_at_text)))
       Sample.store_pending).1 = 200%Z
  ∧ @WebhookRoute.POST Sample.runtime Sample.env_signed 1705320060000
      (Sample.request (Some "sha256=forged")
         (Sample.payload "tx-1" "approved" (Some Sample.paid_at_text)))
      Sample.store_pending
    = ({| http_status := 401; http_body := ErrorBody "Invalid signature" |},
       Sample.store_pending).
Proof.
  split.
  - destruct (@POST_signed Sample.runtime Sample.env_signed 1705320060000
                (Sample.request
                   (Some "sha256=5d5c2f6e1b0a4c3d9e8f7a6b5c4d3e2f1a0b9c8d7e6f5a4b3c2d1e0f9a8b7c6d")
                   (Sample.payload "tx-1" "approved" (Some Sample.paid_at_text)))
                Sample.store_pending
                (Sample.payload "tx-1" "approved" (Some Sample.paid_at_text))
                "s3cr3t") as [Hok _].
    + reflexivity.
    + discriminate.
    + discriminate.
    + reflexivity.
    + apply Hok. reflexivity.
  - destruct (@POST_signed Sample.runtime Sample.env_signed 1705320060000
                (Sample.request (Some "sha256=forged")
                   (Sample.payload "tx-1" "approved" (Some Sample.paid_at_text)))
                Sample.store_pending
                (Sample.payload "tx-1" "approved" (Some Sample.paid_at_text))
                "s3cr3t") as [_ Hbad].
    + reflexivity.
    + discriminate.
    + discriminate.
    + reflexivity.
    + apply Hbad. discriminate.
Defined.

(** X13. A webhook writes at most the record its payload names: every
    record under another id is left as it was, and no id is added to or
    removed from the store. *)
Theorem POST_frame `{Runtime} (e : Env) (now : Z) (request : WebhookRequest)
    (store : gmap string Transaction) :
  (∀ k,
     (∀ payload, JSON_parse (rawBody request) = Some payload →
                 WebhookRoute.transactionId_of (payload_data payload) ≠ Some k) →
     (WebhookRoute.POST e now request store).2 !! k = store !! k)
  ∧ dom (WebhookRoute.POST e now request store).2 = dom store.
Proof.
  split.
  - intros k Hk. unfold WebhookRoute.POST.
    destruct (JSON_parse (rawBody request)) as [payload |]; [| done].
    specialize (Hk payload eq_refl).
    destruct (_ && _ && _); [done |].
    destruct (WebhookRoute.transactionId_of (payload_data payload)) as [tid |];
      [| done].
    destruct (getTransaction tid store); [| done].
    cbn [snd]. apply updateTransactionStatus_other. congruence.
  - destruct (POST_store_cases e now request store) as [-> | (k & s & d & ->)];
      [done | apply updateTransactionStatus_dom].
Qed.

Lemma POST_frame_witness :
  (@WebhookRoute.POST Sample.runtime Sample.env_unsigned 1705320060000
     (Sample.request None (Sample.payload "tx-1" "refused" None))
     (saveTransaction 7 "tx-2" Sample.order Sample.store_pending)).2 !! "tx-2"
  = saveTransaction 7 "tx-2" Sample.order Sample.store_pending !! "tx-2".
Proof.
  destruct (@POST_frame Sample.runtime Sample.env_unsigned 1705320060000
              (Sample.request None (Sample.payload "tx-1" "refused" None))
              (saveTransaction 7 "tx-2" Sample.order Sample.store_pending))
    as [Hother _].
  apply Hother. intros payload Hparse.
  vm_compute in Hparse. injection Hparse as <-. discriminate.
Defined.

(** X14. The paid date a processed webhook leaves in the record: when the
    mapped status is paid, the date parsed from [paid_at] if the payload has
    one, else the time of processing; for any other status the date the
    record had. *)
Theorem POST_paid_date `{Runtime} (e : Env) (now : Z) (request : WebhookRequest)
    (store : gmap string Transaction) (payload : TrexPayWebhookPayload)
    (tid : string) (t : Transaction) :
  JSON_parse (rawBody request) = Some payload →
  signature_accepted e payload request →
  WebhookRoute.transactionId_of (payload_data payload) = Some tid →
  store !! tid = Some t →
  ∃ t', (WebhookRoute.POST e now request store).2 !! tid = Some t'
        ∧ (mapTrexPayStatus (data_status (payload_data payload)) ≠ "paid" →
           paidAt t' = paidAt t)
        ∧ (mapTrexPayStatus (data_status (payload_data payload)) = "paid" →
           (∀ s, data_paid_at (payload_data payload) = Some s → s ≠ "" →
                 paidAt t' = Some (Date_of_string s))
           ∧ (Js.truthy_opt (data_paid_at (payload_data payload)) = false →
              paidAt t' = Some (ValidDate now))).
Proof.
  intros Hparse Hgate Htid Ht.
  rewrite (POST_accepted e now request store payload Hparse Hgate), Htid, Ht.
  cbn [snd]. eexists. split; [by apply updateTransactionStatus_lookup |].
  cbn [paidAt]. unfold WebhookRoute.paidAt_of.
  destruct (String.eqb_spec (mapTrexPayStatus (data_status (payload_data payload)))
              "paid") as [Hpaid | Hpaid].
  - split; [done |]. intros _. split.
    + intros s Hs Hne. rewrite Hs. simpl.
      apply truthy_true_iff in Hne. by rewrite Hne.
    + by intros ->.
  - split; [done | done].
Qed.

Lemma POST_paid_date_witness :
  ∃ t', (@WebhookRoute.POST Sample.runtime Sample.env_unsigned 1705320120000
           (Sample.request None (Sample.payload "tx-1" "refused" None))
           Sample.store_paid).2 !! "tx-1" = Some t'
        ∧ paidAt t' = Some (ValidDate Sample.paid_at_ms).
Proof.
  destruct (@POST_paid_date Sample.runtime Sample.env_unsigned 1705320120000
              (Sample.request None (Sample.payload "tx-1" "refused" None))
              Sample.store_paid (Sample.payload "tx-1" "refused" None) "tx-1"
              {| orderId := data_orderId Sample.order; status := "paid";
                 amount := data_tx_amount Sample.order;
                 customer := data_customer Sample.order;
                 trackingParams := data_trackingParams Sample.order;
                 products := data_products Sample.order;
                 createdAt := ValidDate Sample.created_ms;
                 paidAt := Some (ValidDate Sample.paid_at_ms) |})
    as (t' & Ht' & Hkeep & _).
  - reflexivity.
  - left. reflexivity.
  - reflexivity.
  - reflexivity.
  - exists t'. split; [exact Ht' |]. apply Hkeep. discriminate.
Defined.

(** The paid date of a webhook does not depend on the time of processing
    when the status is not paid or the payload brings its own date. *)
Lemma paidAt_of_now `{Runtime} (now now' : Z) (mapped : string) (data : WebhookData) :
  (mapped = "paid" → Js.truthy_opt (data_paid_at data) = true ∨ now' = now) →
  WebhookRoute.paidAt_of now' mapped data = WebhookRoute.paidAt_of now mapped data.
Proof.
  intros Hnow. unfold WebhookRoute.paidAt_of.
  destruct (String.eqb_spec mapped "paid") as [Hpaid | Hpaid]; [| done].
  destruct (Hnow Hpaid) as [-> | ->]; done.
Qed.

(** X15. Redelivery of a webhook is harmless: processing the same request
    again gives the same answer and leaves the store as the first delivery
    left it, provided the status is not paid, or the payload carries its
    [paid_at], or the clock has not moved. *)
Theorem POST_redelivery `{Runtime} (e : Env) (now now' : Z) (request : WebhookRequest)
    (store : gmap string Transaction) :
  (∀ payload, JSON_parse (rawBody request) = Some payload →
              mapTrexPayStatus (data_status (payload_data payload)) = "paid" →
              Js.truthy_opt (data_paid_at (payload_data payload)) = true ∨ now' = now) →
  WebhookRoute.POST e now' request (WebhookRoute.POST e now request store).2
  = WebhookRoute.POST e now request store.
Proof.
  intros Hnow.
  destruct (JSON_parse (rawBody request)) as [payload |] eqn:Hparse.
  - specialize (Hnow payload eq_refl).
    destruct (signature_accepted_dec e payload request) as [Hgate | Hgate].
    + rewrite (POST_accepted e now request store payload Hparse Hgate).
      destruct (WebhookRoute.transactionId_of (payload_data payload)) as [k |] eqn:Hk.
      * destruct (store !! k) as [t |] eqn:Ht; cbn [snd].
        -- rewrite (POST_accepted e now' request _ payload Hparse Hgate), Hk.
           rewrite (updateTransactionStatus_lookup _ _ _ _ _ Ht).
           cbn zeta. rewrite (paidAt_of_now now now' _ _ Hnow).
           by rewrite updateTransactionStatus_twice.
        -- by rewrite (POST_accepted e now' request _ payload Hparse Hgate), Hk, Ht.
      * cbn [snd]. by rewrite (POST_accepted e now' request _ payload Hparse Hgate), Hk.
    + rewrite (POST_rejected e now request store payload Hparse Hgate). cbn [snd].
      apply (POST_rejected e now' request store payload Hparse Hgate).
  - unfold WebhookRoute.POST. by rewrite Hparse.
Qed.

Lemma POST_redelivery_witness :
  @WebhookRoute.POST Sample.runtime Sample.env_unsigned 1705320999000
    (Sample.request None (Sample.payload "tx-1" "approved" (Some Sample.paid_at_text)))
    Sample.store_paid
  = ({| http_status := 200; http_body := ProcessedBody true "paid" |}, Sample.store_paid).
Proof.
  pose proof (@POST_redelivery Sample.runtime Sample.env_unsigned
                1705320060000 1705320999000
                (Sample.request None
                   (Sample.payload "tx-1" "approved" (Some Sample.paid_at_text)))
                Sample.store_pending) as Hagain.
  refine (eq_trans _ (eq_trans (Hagain _) _)).
  - vm_compute. reflexivity.
  - intros payload Hparse _. left.
    vm_compute in Hparse. injection Hparse as <-. reflexivity.
  - vm_compute. reflexivity.
Defined.

(** X16. After a webhook has been processed for a record, the status query
    for its id reports the mapped status, provided the paid date the record
    ends with is a valid one. *)
Theorem POST_then_GET `{Runtime} (e : Env) (now : Z) (request : WebhookRequest)
    (store : gmap string Transaction) (payload : TrexPayWebhookPayload)
    (tid : string) (t t' : Transaction) :
  JSON_parse (rawBody request) = Some payload →
  signature_accepted e payload request →
  WebhookRoute.transactionId_of (payload_data payload) = Some tid →
  tid ≠ "" →
  store !! tid = Some t →
  (WebhookRoute.POST e now request store).2 !! tid = Some t' →
  paidAt t' ≠ Some InvalidDate →
  ∃ iso, StatusRoute.GET (WebhookRoute.POST e now request store).2 (Some tid)
         = {| http_status := 200;
              http_body :=
                FoundBody true tid (orderId t)
                  (mapTrexPayStatus (data_status (payload_data payload))) iso |}.
Proof.
  intros Hparse Hgate Htid Hne Ht Ht' Hvalid.
  destruct (GET_found _ tid t' Hne Ht' Hvalid) as (iso & Hget & _).
  exists iso. rewrite Hget.
  rewrite (POST_accepted e now request store payload Hparse Hgate), Htid, Ht in Ht'.
  cbn [snd] in Ht'. rewrite (updateTransactionStatus_lookup _ _ _ _ _ Ht) in Ht'.
  by injection Ht' as <-.
Qed.

Lemma POST_then_GET_witness :
  ∃ iso, @StatusRoute.GET Sample.runtime
           (@WebhookRoute.POST Sample.runtime Sample.env_unsigned 1705320060000
              (Sample.request None
                 (Sample.payload "tx-1" "approved" (Some Sample.paid_at_text)))
              Sample.store_pending).2 (Some "tx-1")
         = {| http_status := 200;
              http_body := FoundBody true "tx-1" "PED-LP2K3X-9F3A" "paid" iso |}.
Proof.
  apply (@POST_then_GET Sample.runtime Sample.env_unsigned 1705320060000
           (Sample.request None
              (Sample.payload "tx-1" "approved" (Some Sample.paid_at_text)))
           Sample.store_pending
           (Sample.payload "tx-1" "approved" (Some Sample.paid_at_text))
           "tx-1"
           {| orderId := data_orderId Sample.order; status := "pending";
              amount := data_tx_amount Sample.order;
              customer := data_customer Sample.order;
              trackingParams := data_trackingParams Sample.order;
              products := data_products Sample.order;
              createdAt := ValidDate Sample.created_ms; paidAt := None |}
           {| orderId := data_orderId Sample.order; status := "paid";
              amount := data_tx_amount Sample.order;
              customer := data_customer Sample.order;
              trackingParams := data_trackingParams Sample.order;
              products := data_products Sample.order;
              createdAt := ValidDate Sample.created_ms;
              paidAt := Some (ValidDate Sample.paid_at_ms) |}).
  - reflexivity.
  - left. reflexivity.
  - reflexivity.
  - discriminate.
  - reflexivity.
  - vm_compute. reflexivity.
  - discriminate.
Defined.

(** ** Status query route: answers *)

(** X17. The status query answers 400 when the id is missing or empty; for
    an id that is given it answers 500 exactly when the record under it has a
    paid date that is not a valid date, and 200 in every other case. *)
Theorem GET_answers `{Runtime} (store : gmap string Transaction) (query : option string) :
  (Js.truthy_opt query = false →
   StatusRoute.GET store query
   = {| http_status := 400; http_body := ErrorBody "transactionId é obrigatório" |})
  ∧ (∀ tid, query = Some tid → tid ≠ "" →
       (http_status (StatusRoute.GET store query) = 500%Z
        ↔ ∃ t, store !! tid = Some t ∧ paidAt t = Some InvalidDate)
       ∧ (http_status (StatusRoute.GET store query) = 200%Z
          ↔ ∀ t, store !! tid = Some t → paidAt t ≠ Some InvalidDate)).
Proof.
  split.
  - unfold StatusRoute.GET. destruct query as [tid |]; simpl; [| done].
    by intros ->.
  - intros tid -> Hne.
    destruct (store !! tid) as [t |] eqn:Ht.
    + assert (Hdec : paidAt t = Some InvalidDate ∨ paidAt t ≠ Some InvalidDate).
      { destruct (paidAt t) as [[ms |] |]; [by right | by left | by right]. }
      destruct Hdec as [Hbad | Hok].
      * rewrite (GET_invalid_date store tid t Hne Ht Hbad). simpl. split.
        -- split; [by eauto | done].
        -- split; [done |]. intros Hall. by destruct (Hall t eq_refl).
      * destruct (GET_found store tid t Hne Ht Hok) as (iso & -> & _). simpl. split.
        -- split; [done |]. intros (t' & [= <-] & Hbad). done.
        -- split; [| done]. by intros _ t' [= <-].
    + rewrite (GET_not_found store tid Hne Ht). simpl. split.
      * split; [done |]. by intros (t' & [=] & _).
      * split; [| done]. by intros _ t' [=].
Qed.

Lemma GET_answers_witness :
  @StatusRoute.GET Sample.runtime Sample.store_paid (Some "")
  = {| http_status := 400; http_body := ErrorBody "transactionId é obrigatório" |}.
Proof.
  destruct (@GET_answers Sample.runtime Sample.store_paid (Some "")) as [Hmissing _].
  apply Hmissing. reflexivity.
Defined.

(** X18. A transaction that has just been saved is reported by the status
    query with the status it was saved with and no paid date. *)
Theorem GET_after_save `{Runtime} (now : Z) (tid : string) (data : TransactionData)
    (store : gmap string Transaction) :
  tid ≠ "" →
  StatusRoute.GET (saveTransaction now tid data store) (Some tid)
  = {| http_status := 200;
       http_body := FoundBody true tid (data_orderId data) (data_tx_status data) None |}.
Proof.
  intros Hne. unfold StatusRoute.GET, getTransaction, saveTransaction.
  apply truthy_true_iff in Hne. by rewrite Hne, lookup_insert_eq.
Qed.

Lemma GET_after_save_witness :
  @StatusRoute.GET Sample.runtime Sample.store_pending (Some "tx-1")
  = {| http_status := 200;
       http_body := FoundBody true "tx-1" "PED-LP2K3X-9F3A" "pending" None |}.
Proof.
  apply (@GET_after_save Sample.runtime Sample.created_ms "tx-1" Sample.order ∅).
  discriminate.
Defined.

(** ** Charge creation route: helpers *)

Lemma digits_only_filter (s : string) :
  list_ascii_of_string (CreateRoute.digits_only s)
  = List.filter CreateRoute.is_digit (list_ascii_of_string s).
Proof.
  induction s as [| c s IH]; simpl; [done |].
  destruct (CreateRoute.is_digit c); simpl; by rewrite IH.
Qed.

(** X19. Stripping the non-digits keeps exactly the digits of the string,
    in order; it changes nothing in a string of digits, so stripping twice is
    stripping once. *)
Theorem digits_only_spec (s : string) :
  list_ascii_of_string (CreateRoute.digits_only s)
  = List.filter CreateRoute.is_digit (list_ascii_of_string s)
  ∧ List.Forall (λ c, CreateRoute.is_digit c = true)
      (list_ascii_of_string (CreateRoute.digits_only s))
  ∧ CreateRoute.digits_only (CreateRoute.digits_only s) = CreateRoute.digits_only s
  ∧ (List.Forall (λ c, CreateRoute.is_digit c = true) (list_ascii_of_string s) →
     CreateRoute.digits_only s = s).
Proof.
  assert (Hall : ∀ u, List.Forall (λ c, CreateRoute.is_digit c = true)
                        (list_ascii_of_string (CreateRoute.digits_only u))).
  { induction u as [| c u IH]; simpl; [constructor |].
    destruct (CreateRoute.is_digit c) eqn:Hc; simpl; [by constructor | done]. }
  assert (Hid : ∀ u, List.Forall (λ c, CreateRoute.is_digit c = true)
                       (list_ascii_of_string u) →
                     CreateRoute.digits_only u = u).
  { induction u as [| c u IH]; simpl; [done |].
    intros Hu. inversion Hu as [| ? ? Hc Hrest]; subst.
    by rewrite Hc, IH. }
  split; [apply digits_only_filter |]. split; [apply Hall |].
  split; [apply Hid, Hall | apply Hid].
Qed.

Lemma digits_only_spec_witness :
  CreateRoute.digits_only "(11) 99999-9999" = "11999999999"
  ∧ CreateRoute.digits_only "11999999999" = "11999999999".
Proof.
  split; [reflexivity |].
  destruct (digits_only_spec "11999999999") as (_ & _ & _ & Hid).
  apply Hid. repeat constructor.
Defined.

Lemma prefix_nil (s : string) : String.prefix "" s = true.
Proof. by destruct s. Qed.

Lemma upper_char_not_lower (c : ascii) : Js.is_lower (Js.upper_char c) = false.
Proof.
  destruct c as [[] [] [] [] [] [] [] []]; vm_compute; reflexivity.
Qed.

Lemma toUpperCase_not_lower (s : string) :
  List.Forall (λ c, Js.is_lower c = false) (list_ascii_of_string (Js.toUpperCase s)).
Proof.
  induction s as [| c s IH]; simpl; constructor; [apply upper_char_not_lower | done].
Qed.

Lemma list_ascii_of_string_app (s t : string) :
  list_ascii_of_string (s ++ t) = (list_ascii_of_string s ++ list_ascii_of_string t)%list.
Proof. induction s as [| c s IH]; simpl; [done | by rewrite IH]. Qed.

(** X20. An order id starts with "PED-", so it is never empty, and holds
    no lower-case letter, whatever the clock and the random source give. *)
Theorem generateOrderId_shape (timestamp36 random36 : string) :
  String.prefix "PED-" (CreateRoute.generateOrderId timestamp36 random36) = true
  ∧ CreateRoute.generateOrderId timestamp36 random36 ≠ ""
  ∧ List.Forall (λ c, Js.is_lower c = false)
      (list_ascii_of_string (CreateRoute.generateOrderId timestamp36 random36)).
Proof.
  unfold CreateRoute.generateOrderId. split; [| split].
  - simpl. repeat (destruct (ascii_dec _ _); [| congruence]). apply prefix_nil.
  - done.
  - rewrite !list_ascii_of_string_app. rewrite !Forall_app.
    split; [repeat constructor |].
    split; [apply toUpperCase_not_lower |].
    split; [repeat constructor | apply toUpperCase_not_lower].
Qed.

Lemma prefix_app (p s t : string) :
  String.prefix p s = true → String.prefix p (s ++ t) = true.
Proof.
  revert s. induction p as [| a p IH]; intros s; [intros _; apply prefix_nil |].
  destruct s as [| b s]; simpl; [done |].
  destruct (ascii_dec a b); [apply IH | done].
Qed.

(** X21. The webhook URL handed to the gateway always starts with "http"
    and ends with the webhook path; [NEXT_PUBLIC_APP_URL] is preferred to
    [VERCEL_URL], and without either the placeholder URL is used. *)
Theorem getWebhookUrl_shape (app_url vercel_url : option string) :
  String.prefix "http" (CreateRoute.getWebhookUrl app_url vercel_url) = true
  ∧ (∃ base, CreateRoute.getWebhookUrl app_url vercel_url
             = base ++ "/api/webhook/trexpay")
  ∧ (Js.truthy_opt app_url = true →
     CreateRoute.getWebhookUrl app_url vercel_url
     = CreateRoute.getWebhookUrl app_url None)
  ∧ (Js.truthy_opt app_url = false → Js.truthy_opt vercel_url = false →
     CreateRoute.getWebhookUrl app_url vercel_url
     = "https://seusite.com/api/webhook/trexpay").
Proof.
  unfold CreateRoute.getWebhookUrl, Js.or_opt. split; [| split; [| split]].
  - destruct (Js.truthy_opt app_url) eqn:Ha.
    + rewrite Ha.
      destruct (String.prefix "http" (Js.or_str app_url "")) eqn:Hp;
        [by apply prefix_app | reflexivity].
    + destruct (Js.truthy_opt vercel_url) eqn:Hv; [| reflexivity].
      destruct (String.prefix "http" (Js.or_str vercel_url "")) eqn:Hp;
        [by apply prefix_app | reflexivity].
  - destruct (Js.truthy_opt (if Js.truthy_opt app_url then app_url else vercel_url));
      [by eexists | by exists "https://seusite.com"].
  - by intros ->.
  - by intros -> ->.
Qed.

Lemma getWebhookUrl_shape_witness :
  CreateRoute.getWebhookUrl (Some "") None = "https://seusite.com/api/webhook/trexpay"
  ∧ CreateRoute.getWebhookUrl None (Some "loja.vercel.app")
    = "https://loja.vercel.app/api/webhook/trexpay".
Proof.
  split; [| reflexivity].
  destruct (getWebhookUrl_shape (Some "") None) as (_ & _ & _ & Hdefault).
  apply Hdefault; reflexivity.
Defined.

(** ** Charge creation route *)

(** The handler on a body that passes validation. *)
Lemma CreateRoute_POST_valid (e : Env) (w : CreateRoute.World)
    (b : CreateRoute.CreateBody) (store : gmap string Transaction)
    (name email cpf phone : string) (items : list CreateRoute.ItemBody) (total : Q) :
  well_formed_charge b name email cpf phone items total →
  utm_saved w b →
  CreateRoute.POST e w (Some b) store
  = let orderId :=
      CreateRoute.generateOrderId (CreateRoute.w_timestamp36 w)
        (CreateRoute.w_random36 w) in
    let result :=
      createTrexPayPix e (CreateRoute.w_fetch w)
        (CreateRoute.charge_of w name email cpf phone total
           (CreateRoute.cb_trackingParams b)) in
    if negb (success result.1) then
      (CreateRoute.Failed 500 (JsVal.or (error result.1) (JString "Erro ao gerar PIX")),
       store, result.2)
    else
      let transactionId :=
        JsVal.or (JsVal.or (transaction_id result.1) (txid result.1))
                 (JString orderId) in
      (CreateRoute.Created orderId transactionId (qrcode result.1)
         (qrcode_base64 result.1) (expires_at result.1),
       CreateRoute.save_under (CreateRoute.w_now w) transactionId
         (CreateRoute.record_of orderId name email cpf phone total items
            (CreateRoute.cb_trackingParams b))
         store,
       result.2).
Proof.
  intros [(c & Hc & Hn & Hn' & Hm & Hm' & Hd & Hd' & Hp & Hp')
            (Hi & Hi' & Ht & Ht')] Hutm.
  unfold CreateRoute.POST. rewrite Hc, Hn, Hm, Hd, Hp, Hi, Ht.
  apply truthy_true_iff in Hn', Hm', Hd', Hp'. cbn [Js.truthy_opt Js.or_str].
  rewrite Hn', Hm', Hd', Hp'. cbn [negb orb].
  destruct items as [| item items]; [done |].
  assert (Hpos : (Qnum total <=? 0)%Z = false).
  { apply Z.leb_gt. unfold Qlt in Ht'. simpl in Ht'. lia. }
  rewrite Hpos.
  assert (Hu : (match CreateRoute.cb_trackingParams b with
                | Some _ => true | None => false end)
               && negb (CreateRoute.w_saveUtmParams_returns w) = false).
  { destruct Hutm as [-> | ->]; [done | by rewrite andb_false_r]. }
  rewrite Hu. cbn zeta.
  destruct (createTrexPayPix e (CreateRoute.w_fetch w) _) as [r calls]. done.
Qed.



(** X23. Whatever the request and the gateway, the charge creation route
    answers an error only with status 400 or 500 and then leaves the store as
    it was; it calls the gateway at most once, and not at all before a 400. *)
Theorem CreateRoute_POST_failed (e : Env) (w : CreateRoute.World)
    (body : option CreateRoute.CreateBody) (store : gmap string Transaction) :
  (List.length (CreateRoute.POST e w body store).2 ≤ 1)%nat
  ∧ ∀ http err,
      (CreateRoute.POST e w body store).1.1 = CreateRoute.Failed http err →
      (CreateRoute.POST e w body store).1.2 = store
      ∧ (http = 400%Z ∨ http = 500%Z)
      ∧ (http = 400%Z → (CreateRoute.POST e w body store).2 = []).
Proof.
  unfold CreateRoute.POST.
  destruct body as [b |]; [| split; [simpl; lia | intros ?? [= <- <-]; auto]].
  destruct (negb _ || negb _ || negb _ || negb _);
    [split; [simpl; lia | intros ?? [= <- <-]; auto] |].
  destruct (CreateRoute.cb_items b) as [[| item items] |];
    [split; [simpl; lia | intros ?? [= <- <-]; auto] |
     | split; [simpl; lia | intros ?? [= <- <-]; auto]].
  destruct (CreateRoute.cb_total b) as [total |];
    [| split; [simpl; lia | intros ?? [= <- <-]; auto]].
  destruct (Qnum total <=? 0)%Z;
    [split; [simpl; lia | intros ?? [= <- <-]; auto] |].
  destruct (_ && negb _); [split; [simpl; lia | intros ?? [= <- <-]; auto] |].
  cbn zeta.
  match goal with
  | |- context [createTrexPayPix ?e ?f ?r] =>
      pose proof (createTrexPayPix_calls_length e f r) as Hlen;
      destruct (createTrexPayPix e f r) as [r' calls]
  end.
  cbn [snd] in Hlen.
  destruct (negb (success r')); cbn [fst snd].
  - split; [exact Hlen |]. intros ?? [= <- <-]. split; [done |]. split; [by right |].
    intros [=].
  - split; [exact Hlen |]. intros ?? [=].
Qed.

Lemma CreateRoute_POST_failed_witness :
  (CreateRoute.POST Sample.env_signed
     (SampleCheckout.world (Sample.gateway 503 (JObject ∅)))
     (Some SampleCheckout.body) Sample.store_pending).1.2
  = Sample.store_pending.
Proof.
  destruct (CreateRoute_POST_failed Sample.env_signed
              (SampleCheckout.world (Sample.gateway 503 (JObject ∅)))
              (Some SampleCheckout.body) Sample.store_pending) as [_ Hfailed].
  destruct (Hfailed 500%Z (JString "Erro ao criar PIX")) as (Hstore & _).
  - reflexivity.
  - exact Hstore.
Defined.

Lemma generateOrderId_truthy (timestamp36 random36 : string) :
  Js.truthy (CreateRoute.generateOrderId timestamp36 random36) = true.
Proof. reflexivity. Qed.

Lemma JsVal_or_default_truthy (a b : JsValue) (fallback : string) :
  Js.truthy fallback = true →
  JsVal.truthy (JsVal.or (JsVal.or a b) (JString fallback)) = true.
Proof.
  intros Hf. rewrite !JsVal_or_truthy. simpl. rewrite Hf. by rewrite orb_true_r.
Qed.

Lemma JsVal_or_chain (a b c : JsValue) :
  JsVal.or (JsVal.or a b) c
  = if JsVal.truthy a then a else if JsVal.truthy b then b else c.
Proof.
  unfold JsVal.or.
  destruct (JsVal.truthy a) eqn:Ha; destruct (JsVal.truthy b) eqn:Hb;
    rewrite ?Ha, ?Hb; done.
Qed.

(** X24. When the gateway client reports a failure for a valid charge
    request, the route answers 500 with the client's error, or "Erro ao gerar
    PIX" when there is none, and saves nothing. *)
Theorem CreateRoute_POST_gateway_failure (e : Env) (w : CreateRoute.World)
    (b : CreateRoute.CreateBody) (store : gmap string Transaction)
    (name email cpf phone : string) (items : list CreateRoute.ItemBody) (total : Q) :
  well_formed_charge b name email cpf phone items total →
  utm_saved w b →
  success (createTrexPayPix e (CreateRoute.w_fetch w)
             (CreateRoute.charge_of w name email cpf phone total
                (CreateRoute.cb_trackingParams b))).1 = false →
  ∃ err,
    CreateRoute.POST e w (Some b) store
    = (CreateRoute.Failed 500 err, store,
       (createTrexPayPix e (CreateRoute.w_fetch w)
          (CreateRoute.charge_of w name email cpf phone total
             (CreateRoute.cb_trackingParams b))).2)
    ∧ JsVal.truthy err = true
    ∧ err = (if JsVal.truthy
                  (error (createTrexPayPix e (CreateRoute.w_fetch w)
                            (CreateRoute.charge_of w name email cpf phone total
                               (CreateRoute.cb_trackingParams b))).1)
             then error (createTrexPayPix e (CreateRoute.w_fetch w)
                           (CreateRoute.charge_of w name email cpf phone total
                              (CreateRoute.cb_trackingParams b))).1
             else JString "Erro ao gerar PIX").
Proof.
  intros Hwf Hutm Hfail.
  rewrite (CreateRoute_POST_valid e w b store _ _ _ _ _ _ Hwf Hutm).
  cbn zeta. rewrite Hfail. cbn [negb].
  eexists. split; [reflexivity |]. split; [| reflexivity].
  rewrite JsVal_or_truthy. simpl. by rewrite orb_true_r.
Qed.

Lemma CreateRoute_POST_gateway_failure_witness :
  ∃ err,
    CreateRoute.POST Sample.env_unsigned
      (SampleCheckout.world (Sample.gateway 200 (JObject {[ "id" := JString "tx-1" ]})))
      (Some SampleCheckout.body) Sample.store_pending
    = (CreateRoute.Failed 500 err, Sample.store_pending, [])
    ∧ JsVal.truthy err = true.
Proof.
  destruct (CreateRoute_POST_gateway_failure Sample.env_unsigned
              (SampleCheckout.world
                 (Sample.gateway 200 (JObject {[ "id" := JString "tx-1" ]})))
              SampleCheckout.body Sample.store_pending
              "Ana" "a@x.com" "123.456.789-00" "(11) 99999-9999"
              [ {| CreateRoute.item_id := Some "caderno";
                   CreateRoute.item_name := "Caderno";
                   CreateRoute.item_price := 499 # 10;
                   CreateRoute.item_quantity := 1 |} ]
              (499 # 10)) as (err & Hpost & Htruthy & _).
  - split.
    + eexists. repeat split; discriminate.
    + repeat split. discriminate.
  - left. reflexivity.
  - reflexivity.
  - exists err. split; [exact Hpost | exact Htruthy].
Defined.

(** X25. When the gateway client reports success for a valid charge
    request, the route answers with the order id and a transaction id that is
    never empty: the gateway's [transaction_id], else its [txid], else the
    order id.  Under a string id the store then holds a pending record without
    paid date that carries the order id, the total, the customer with phone
    and document reduced to their digits, and the items; the records under
    the other ids are as before. *)
Theorem CreateRoute_POST_created (e : Env) (w : CreateRoute.World)
    (b : CreateRoute.CreateBody) (store : gmap string Transaction)
    (name email cpf phone : string) (items : list CreateRoute.ItemBody) (total : Q) :
  well_formed_charge b name email cpf phone items total →
  utm_saved w b →
  success (createTrexPayPix e (CreateRoute.w_fetch w)
             (CreateRoute.charge_of w name email cpf phone total
                (CreateRoute.cb_trackingParams b))).1 = true →
  let result :=
    (createTrexPayPix e (CreateRoute.w_fetch w)
       (CreateRoute.charge_of w name email cpf phone total
          (CreateRoute.cb_trackingParams b))).1 in
  let oid :=
    CreateRoute.generateOrderId (CreateRoute.w_timestamp36 w) (CreateRoute.w_random36 w) in
  ∃ transactionId,
    (CreateRoute.POST e w (Some b) store).1.1
    = CreateRoute.Created oid transactionId (qrcode result) (qrcode_base64 result)
        (expires_at result)
    ∧ JsVal.truthy transactionId = true
    ∧ transactionId
      = (if JsVal.truthy (transaction_id result) then transaction_id result
         else if JsVal.truthy (txid result) then txid result
         else JString oid)
    ∧ ∀ k, transactionId = JString k →
           k ≠ ""
           ∧ (∃ t, (CreateRoute.POST e w (Some b) store).1.2 !! k = Some t
                   ∧ orderId t = oid
                   ∧ status t = "pending"
                   ∧ paidAt t = None
                   ∧ createdAt t = ValidDate (CreateRoute.w_now w)
                   ∧ amount t = total
                   ∧ customer t
                     = {| cust_name := name; cust_email := email;
                          cust_phone := CreateRoute.digits_only phone;
                          cust_document := CreateRoute.digits_only cpf |}
                   ∧ products t = map CreateRoute.product_of items)
           ∧ ∀ other, other ≠ k →
                      (CreateRoute.POST e w (Some b) store).1.2 !! other = store !! other.
Proof.
  intros Hwf Hutm Hok result oid.
  assert (Hpost : CreateRoute.POST e w (Some b) store
                  = (CreateRoute.Created oid
                       (JsVal.or (JsVal.or (transaction_id result) (txid result))
                                 (JString oid))
                       (qrcode result) (qrcode_base64 result) (expires_at result),
                     CreateRoute.save_under (CreateRoute.w_now w)
                       (JsVal.or (JsVal.or (transaction_id result) (txid result))
                                 (JString oid))
                       (CreateRoute.record_of oid name email cpf phone total items
                          (CreateRoute.cb_trackingParams b))
                       store,
                     (createTrexPayPix e (CreateRoute.w_fetch w)
                        (CreateRoute.charge_of w name email cpf phone total
                           (CreateRoute.cb_trackingParams b))).2)).
  { rewrite (CreateRoute_POST_valid e w b store _ _ _ _ _ _ Hwf Hutm).
    cbn zeta. by rewrite Hok. }
  rewrite Hpost. cbn [fst snd].
  pose proof (JsVal_or_default_truthy (transaction_id result) (txid result) oid
                (generateOrderId_truthy _ _)) as Htruthy.
  pose proof (JsVal_or_chain (transaction_id result) (txid result) (JString oid))
    as Hchain.
  remember (JsVal.or (JsVal.or (transaction_id result) (txid result)) (JString oid))
    as tid eqn:Htid.
  exists tid. split; [reflexivity |]. split; [exact Htruthy |]. split; [exact Hchain |].
  intros k ->. split; [by apply truthy_true_iff |].
  unfold CreateRoute.save_under, saveTransaction. split.
  - eexists. split; [apply lookup_insert_eq |]. by repeat split.
  - intros other Hne. by apply lookup_insert_ne.
Qed.

Lemma CreateRoute_POST_created_witness :
  ∃ transactionId,
    (CreateRoute.POST Sample.env_signed
       (SampleCheckout.world
          (Sample.gateway 200 (JObject {[ "idTransaction" := JString "tx-7" ]})))
       (Some SampleCheckout.body) Sample.store_pending).1.1
    = CreateRoute.Created "PED-LP2K3X-9F3A" transactionId JUndefined JUndefined JUndefined
    ∧ transactionId = JString "tx-7".
Proof.
  destruct (CreateRoute_POST_created Sample.env_signed
              (SampleCheckout.world
                 (Sample.gateway 200 (JObject {[ "idTransaction" := JString "tx-7" ]})))
              SampleCheckout.body Sample.store_pending
              "Ana" "a@x.com" "123.456.789-00" "(11) 99999-9999"
              [ {| CreateRoute.item_id := Some "caderno";
                   CreateRoute.item_name := "Caderno";
                   CreateRoute.item_price := 499 # 10;
                   CreateRoute.item_quantity := 1 |} ]
              (499 # 10)) as (tid & Hpost & _ & Hid & _).
  - split.
    + eexists. repeat split; discriminate.
    + repeat split. discriminate.
  - left. reflexivity.
  - reflexivity.
  - exists tid. split; [exact Hpost | rewrite Hid; reflexivity].
Defined.

(** The status query on a store where the id has just been saved. *)
Lemma GET_saveTransaction `{Runtime} (now : Z) (tid : string) (data : TransactionData)
    (store : gmap string Transaction) :
  tid ≠ "" →
  StatusRoute.GET (saveTransaction now tid data store) (Some tid)
  = {| http_status := 200;
       http_body := FoundBody true tid (data_orderId data) (data_tx_status data) None |}.
Proof.
  intros Hne. unfold StatusRoute.GET, getTransaction, saveTransaction.
  apply truthy_true_iff in Hne. by rewrite Hne, lookup_insert_eq.
Qed.

(** X26. Once a charge has been created under a string transaction id, the
    status query for that id answers pending, with the order id of the
    creation response and no paid date. *)
Theorem CreateRoute_created_then_GET `{Runtime} (e : Env) (w : CreateRoute.World)
    (b : CreateRoute.CreateBody) (store : gmap string Transaction)
    (name email cpf phone : string) (items : list CreateRoute.ItemBody) (total : Q)
    (oid k : string) (q q64 x : JsValue) :
  well_formed_charge b name email cpf phone items total →
  utm_saved w b →
  (CreateRoute.POST e w (Some b) store).1.1 = CreateRoute.Created oid (JString k) q q64 x →
  StatusRoute.GET (CreateRoute.POST e w (Some b) store).1.2 (Some k)
  = {| http_status := 200; http_body := FoundBody true k oid "pending" None |}.
Proof.
  intros Hwf Hutm.
  rewrite (CreateRoute_POST_valid e w b store _ _ _ _ _ _ Hwf Hutm).
  cbn zeta.
  destruct (negb (success _)); cbn [fst snd]; [intros [=] |].
  intros [= <- Hk _ _ _]. rewrite Hk. cbn [CreateRoute.save_under].
  assert (Hne : k ≠ "").
  { pose proof (JsVal_or_default_truthy
                  (transaction_id
                     (createTrexPayPix e (CreateRoute.w_fetch w)
                        (CreateRoute.charge_of w name email cpf phone total
                           (CreateRoute.cb_trackingParams b))).1)
                  (txid
                     (createTrexPayPix e (CreateRoute.w_fetch w)
                        (CreateRoute.charge_of w name email cpf phone total
                           (CreateRoute.cb_trackingParams b))).1)
                  _ (generateOrderId_truthy (CreateRoute.w_timestamp36 w)
                       (CreateRoute.w_random36 w))) as Ht.
    rewrite Hk in Ht. by apply truthy_true_iff. }
  by rewrite (GET_saveTransaction _ _ _ _ Hne).
Qed.

Lemma CreateRoute_created_then_GET_witness :
  @StatusRoute.GET Sample.runtime
    (CreateRoute.POST Sample.env_signed
       (SampleCheckout.world
          (Sample.gateway 200 (JObject {[ "idTransaction" := JString "tx-7" ]})))
       (Some SampleCheckout.body) Sample.store_pending).1.2 (Some "tx-7")
  = {| http_status := 200;
       http_body := FoundBody true "tx-7" "PED-LP2K3X-9F3A" "pending" None |}.
Proof.
  apply (@CreateRoute_created_then_GET Sample.runtime Sample.env_signed
           (SampleCheckout.world
              (Sample.gateway 200 (JObject {[ "idTransaction" := JString "tx-7" ]})))
           SampleCheckout.body Sample.store_pending
           "Ana" "a@x.com" "123.456.789-00" "(11) 99999-9999"
           [ {| CreateRoute.item_id := Some "caderno";
                CreateRoute.item_name := "Caderno";
                CreateRoute.item_price := 499 # 10;
                CreateRoute.item_quantity := 1 |} ]
           (499 # 10) "PED-LP2K3X-9F3A" "tx-7" JUndefined JUndefined JUndefined).
  - split.
    + eexists. repeat split; discriminate.
    + repeat split. discriminate.
  - left. reflexivity.
  - reflexivity.
Defined.
